(** * Potodo: the filtering, aggregation and rendering engine of [potodo/potodo.py]

    A shallow embedding of [initialize_arguments], [buffer_add],
    [print_dir_stats], [add_dir_stats] and [exec_potodo], together with the
    Python built-ins they rely on ([statistics.mean], [str.strip], f-string
    number formatting, [sorted], [print]).

    Python [int] is [Z]; [str] is [string] (UTF-8 bytes); [float] is an IEEE
    binary64 value in the representation of [SpecFloat]; a [dict] that is
    serialised keeps its insertion order and is an association list, a
    [Mapping] that is only looked up is a [gmap]; exceptions are the left
    injection of a sum; [print] appends to a trace of what was written. *)

From Stdlib Require Import ZArith QArith Qabs String Ascii List Bool Lia.
From Stdlib Require Import Floats.SpecFloat.
From stdpp Require Import gmap strings list pretty sorting.

Set Warnings "-register-all".
Local Open Scope Z_scope.

(** ** Exceptions and the two effect layers *)

Inductive exn : Type :=
  | ValueError (msg : string)
  | StatisticsError (msg : string)
  | OverflowError (msg : string)
  | TypeError (msg : string)
  | ExternalError (msg : string).

(** A computation that may raise. *)
Definition result (A : Type) : Type := exn + A.

Definition ret {A} (a : A) : result A := inr a.
Definition raise {A} (e : exn) : result A := inl e.
Definition rbind {A B} (m : result A) (k : A -> result B) : result B :=
  match m with
  | inl e => inl e
  | inr a => k a
  end.

Declare Scope py_scope.
Delimit Scope py_scope with py.
Notation "'let*' x ':=' m 'in' k" := (rbind m (fun x => k))
  (at level 10, x pattern, m at level 100, k at level 200) : py_scope.
Local Open Scope py_scope.

(** Python values that end up in the buffer or in the JSON document.  A
    [VDict] lists its items in insertion order. *)
Inductive value : Type :=
  | VNone
  | VInt (n : Z)
  | VFloat (x : spec_float)
  | VStr (s : string)
  | VList (l : list value)
  | VDict (items : list (string * value)).

(** What one call of [print] wrote: a string (followed by a newline), or
    the document handed to [json.dumps(..., indent=4, separators=(',', ': '),
    sort_keys=False)], which serialises it in insertion order. *)
Inductive printed : Type :=
  | PrintStr (s : string)
  | PrintJson (doc : value).

(** A computation that prints and may raise: what was printed before the
    exception stays printed. *)
Definition io (A : Type) : Type := list printed * result A.

Definition io_ret {A} (a : A) : io A := ([], inr a).
Definition io_lift {A} (m : result A) : io A := ([], m).
Definition print (p : printed) : io unit := ([p], inr tt).
Definition io_bind {A B} (m : io A) (k : A -> io B) : io B :=
  match m with
  | (out, inl e) => (out, inl e)
  | (out, inr a) => let '(out', r) := k a in (out ++ out', r)
  end.

Notation "'let!' x ':=' m 'in' k" := (io_bind m (fun x => k))
  (at level 10, x pattern, m at level 100, k at level 200) : py_scope.

(** ** Strings *)

(** ["sep".join(l)] *)
Fixpoint str_join (sep : string) (l : list string) : string :=
  match l with
  | [] => ""
  | [s] => s
  | s :: l' => s +:+ sep +:+ str_join sep l'
  end.

(** [len(s)]: the number of code points, that is of bytes that are not
    UTF-8 continuation bytes. *)
Definition is_continuation (c : ascii) : bool :=
  let n := Z.of_N (N_of_ascii c) in (128 <=? n) && (n <? 192).

Fixpoint str_len (s : string) : nat :=
  match s with
  | EmptyString => 0%nat
  | String c s' => if is_continuation c then str_len s' else S (str_len s')
  end.

Fixpoint spaces (n : nat) : string :=
  match n with
  | O => ""
  | S n' => String " " (spaces n')
  end.

(** [f"{s:<w}"] and [f"{s:>w}"] *)
Definition ljust (w : nat) (s : string) : string := s +:+ spaces (w - str_len s).
Definition rjust (w : nat) (s : string) : string := spaces (w - str_len s) +:+ s.

Fixpoint mem_char (c : ascii) (chars : string) : bool :=
  match chars with
  | EmptyString => false
  | String d chars' => if Ascii.eqb c d then true else mem_char c chars'
  end.

(** [s.lstrip(chars)], [s.rstrip(chars)] and [s.strip(chars)]: [chars] is a
    set of characters, every leading and trailing one of them goes. *)
Fixpoint lstrip (chars : string) (s : string) : string :=
  match s with
  | EmptyString => ""
  | String c s' => if mem_char c chars then lstrip chars s' else s
  end.

Definition rstrip (chars : string) (s : string) : string :=
  String.rev (lstrip chars (String.rev s)).

Definition strip (chars : string) (s : string) : string :=
  rstrip chars (lstrip chars s).

(** ** Numbers *)

(** [str(n)] of an [int]. *)
Definition str_of_int (n : Z) : string := pretty n.

(** [f"{n:wd}"] *)
Definition format_d (w : nat) (n : Z) : string := rjust w (str_of_int n).

(** IEEE binary64. *)
Definition float_prec : Z := 53.
Definition float_emax : Z := 1024.

(** The nearest binary64 (ties to even) of [(-1)^s * a / b] for [a >= 0];
    an infinity past the largest finite float. *)
Definition round_ratio (s : bool) (a : Z) (b : positive) : spec_float :=
  if a =? 0 then S754_zero s
  else
    let '(q, e, l) := SFdiv_core_binary float_prec float_emax a 0 (Zpos b) 0 in
    binary_round_aux float_prec float_emax s q e l.

(** Quotients from here on round to an infinity: [2^1024 - 2^970]. *)
Definition overflow_bound : Z := 2 ^ 1024 - 2 ^ 970.

(** [a / b] of two [int]s with [b > 0], correctly rounded;
    [float(a)] is [a / 1]. *)
Definition int_true_divide (a : Z) (b : positive) : result spec_float :=
  if overflow_bound * Zpos b <=? Z.abs a
  then raise (OverflowError "integer division result too large for a float")
  else ret (round_ratio (a <? 0) (Z.abs a) b).

Definition float_of_int (n : Z) : result spec_float :=
  if overflow_bound <=? Z.abs n
  then raise (OverflowError "int too large to convert to float")
  else ret (round_ratio (n <? 0) (Z.abs n) 1).

(** [n / d] rounded to the nearest integer, ties to even ([n >= 0], [d > 0]). *)
Definition div_half_even (n d : Z) : Z :=
  let q := n / d in
  match 2 * (n mod d) ?= d with
  | Lt => q
  | Gt => q + 1
  | Eq => if Z.even q then q else q + 1
  end.

(** The digits of [m * 2^e] at [prec] decimals: the integer nearest to
    [m * 2^e * 10^prec]. *)
Definition scaled_digits (prec : nat) (m : positive) (e : Z) : Z :=
  let n := Zpos m * 10 ^ Z.of_nat prec in
  if 0 <=? e then n * 2 ^ e else div_half_even n (2 ^ (- e)).

Fixpoint zeros (n : nat) : string :=
  match n with
  | O => ""
  | S n' => String "0" (zeros n')
  end.

(** The decimal notation of [(-1)^s * r / 10^prec], with [prec] digits
    after the point. *)
Definition fixed_point (prec : nat) (s : bool) (r : Z) : string :=
  let p := 10 ^ Z.of_nat prec in
  let frac := str_of_int (r mod p) in
  (if s then "-" else "") +:+ str_of_int (r / p) +:+
  match prec with
  | O => ""
  | _ => "." +:+ zeros (prec - String.length frac) +:+ frac
  end.

(** The decimal that [f"{x:.{prec}f}"] prints, as sign and digits. *)
Definition decimal_of_float (prec : nat) (x : spec_float) : option (bool * Z) :=
  match x with
  | S754_zero s => Some (s, 0)
  | S754_finite s m e => Some (s, scaled_digits prec m e)
  | _ => None
  end.

(** [f"{x:.{prec}f}"] of a [float]. *)
Definition format_float_f (prec : nat) (x : spec_float) : string :=
  match decimal_of_float prec x with
  | Some (s, r) => fixed_point prec s r
  | None =>
      match x with
      | S754_infinity true => "-inf"
      | S754_infinity false => "inf"
      | _ => "nan"
      end
  end.

(** [float(f"{x:.{prec}f}")]: the float nearest to the printed decimal. *)
Definition float_of_format_f (prec : nat) (x : spec_float) : spec_float :=
  match decimal_of_float prec x with
  | Some (s, r) => round_ratio s r (Z.to_pos (10 ^ Z.of_nat prec))
  | None => x
  end.


(** What [statistics.mean] returns on [int] data: an [int] when the exact
    mean is one, a [float] otherwise. *)
Inductive number : Type :=
  | NInt (n : Z)
  | NFloat (x : spec_float).

Definition float_of_number (v : number) : result spec_float :=
  match v with
  | NInt n => float_of_int n
  | NFloat x => ret x
  end.

(** [f"{v:.{prec}f}"] and [f"{v:{w}.{prec}f}"] *)
Definition format_f (prec : nat) (v : number) : result string :=
  let* x := float_of_number v in
  ret (format_float_f prec x).

Definition format_wf (w prec : nat) (v : number) : result string :=
  let* s := format_f prec v in
  ret (rjust w s).

(** [sum(data)] *)
Definition sum_Z (data : list Z) : Z := foldr Z.add 0 data.

(** The exact mean as a [Fraction] in lowest terms. *)
Definition fraction_mean (data : list Z) : Q :=
  Qred (sum_Z data # Pos.of_nat (length data)).

(** [statistics.mean(data)] *)
Definition mean (data : list Z) : result number :=
  match data with
  | [] => raise (StatisticsError "mean requires at least one data point")
  | _ =>
      let q := fraction_mean data in
      if (Qden q =? 1)%positive then ret (NInt (Qnum q))
      else
        let* x := int_true_divide (Qnum q) (Qden q) in
        ret (NFloat x)
  end.

(** [sorted(l)] under the elements' [<]: a stable insertion sort, each
    element going before the first one it is smaller than. *)
Section Sorted.
Context {A : Type} (lt : A -> A -> bool).

Fixpoint insort (x : A) (l : list A) : list A :=
  match l with
  | [] => [x]
  | y :: l' => if lt x y then x :: l else y :: insort x l'
  end.

Definition sorted (l : list A) : list A :=
  foldl (fun acc x => insort x acc) [] l.

(** The order [sorted] sorts by: [x] may stand before [y]. *)
Definition before (x y : A) : Prop := lt y x = false.
End Sorted.

(** [[f(x) for x in l]] where [f] may raise. *)
Fixpoint mapM {A B} (f : A -> result B) (l : list A) : result (list B) :=
  match l with
  | [] => ret []
  | x :: l' =>
      let* y := f x in
      let* ys := mapM f l' in
      ret (y :: ys)
  end.

(** The percentages [polib] computes lie between 0 and 100. *)
Definition percentage (p : Z) : Prop := 0 <= p <= 100.

(** ** The data model *)

(** One entry of a po file ([polib.POEntry]); the engine only counts them. *)
Record POEntry : Type := { msgid : string; msgstr : string }.

(** The attributes of [PoFileStats] (declared in [potodo/_po_file.py]) that
    the engine reads; [path] is [str(po_file_stats.path)], and
    [percent_translated] the [int] that goes into [folder_stats: List[int]]. *)
Record PoFileStats : Type := {
    path : string;
    filename : string;
    directory : string;
    filename_dir : string;
    fuzzy_entries : list POEntry;
    fuzzy_nb : Z;
    translated_nb : Z;
    untranslated_entries : list POEntry;
    po_file_size : Z;
    percent_translated : Z
  }.

(** The three lists that [exec_potodo] creates for a directory and that
    [buffer_add] appends to. *)
Record dir_state : Type := {
    buffer : list value;
    folder_stats : list Z;
    printed_list : list bool
  }.

Definition empty_state : dir_state :=
  {| buffer := []; folder_stats := []; printed_list := [] |}.

(** Truth value of a list, of an [int] and of an [Optional[int]]. *)
Definition nonempty {A} (l : list A) : bool :=
  match l with
  | [] => false
  | _ => true
  end.

Definition nonzero (n : Z) : bool := negb (n =? 0).

Definition truthy (x : option Z) : bool :=
  match x with
  | Some n => nonzero n
  | None => false
  end.

(** The line feed. *)
Definition nl : string := String "010"%char "".

(** [type(v).__name__] *)
Definition type_name (v : value) : string :=
  match v with
  | VNone => "NoneType"
  | VInt _ => "int"
  | VFloat _ => "float"
  | VStr _ => "str"
  | VList _ => "list"
  | VDict _ => "dict"
  end.

(** The items of [sep.join(l)], [l] starting at index [i] of the sequence:
    a [TypeError] at the first item that is not a [str]. *)
Fixpoint strings_of (i : nat) (l : list value) : result (list string) :=
  match l with
  | [] => ret []
  | VStr s :: l' => let* r := strings_of (S i) l' in ret (s :: r)
  | v :: _ =>
      raise (TypeError ("sequence item " +:+ pretty i
                        +:+ ": expected str instance, "
                        +:+ type_name v +:+ " found"))
  end.

(** [sep.join(l)] *)
Definition join_values (sep : string) (l : list value) : result string :=
  let* ss := strings_of 0 l in
  ret (str_join sep ss).

(** [True in l] and [any(l)] on a list of [bool]. *)
Definition True_in (l : list bool) : bool := existsb (fun b => b) l.
Definition any (l : list bool) : bool := existsb (fun b => b) l.

(** What a collaborator outside this module returns: its value, or the
    message of the exception it raised. *)
Definition from_external {A} (r : string + A) : result A :=
  match r with
  | inl msg => raise (ExternalError msg)
  | inr a => ret a
  end.

(** ** A sample repository, for the examples *)

Module Sample.

(** [str.lower] on ASCII text. *)
Definition lower_char (c : ascii) : ascii :=
  let n := N_of_ascii c in
  if (65 <=? n)%N && (n <=? 90)%N then ascii_of_N (n + 32) else c.

Fixpoint lower (s : string) : string :=
  match s with
  | EmptyString => EmptyString
  | String c s' => String (lower_char c) (lower s')
  end.

Definition entry : POEntry := {| msgid := "msgid"; msgstr := "msgstr" |}.

(** A file of [size] entries, [fuzzy] of them fuzzy and [untranslated] of
    them untranslated, in [fr/<directory>/<filename>]. *)
Definition po (directory filename : string) (fuzzy untranslated : nat)
    (translated size percent : Z) : PoFileStats :=
  {| path := "fr/" +:+ directory +:+ "/" +:+ filename;
     filename := filename;
     directory := directory;
     filename_dir := directory +:+ "/" +:+ filename;
     fuzzy_entries := replicate fuzzy entry;
     fuzzy_nb := Z.of_nat fuzzy;
     translated_nb := translated;
     untranslated_entries := replicate untranslated entry;
     po_file_size := size;
     percent_translated := percent |}.

(** Files compare as their paths do. *)
Definition po_file_lt (x y : PoFileStats) : bool := String.ltb (path x) (path y).

Definition a_po : PoFileStats := po "folder" "a.po" 0 0 10 10 100.
Definition b_po : PoFileStats := po "folder" "b.po" 2 3 5 10 50.
Definition c_po : PoFileStats := po "folder" "c.po" 0 7 3 10 30.
Definition half_po : PoFileStats := po "fuzzy" "half.po" 0 5 5 10 50.
Definition most_po : PoFileStats := po "fuzzy" "most.po" 1 5 4 10 40.
Definition pickle_po : PoFileStats := po "library" "pickle.po" 0 3 1 4 25.
Definition done_po : PoFileStats := po "done" "index.po" 0 0 8 8 100.

Definition repo : gmap string (list PoFileStats) :=
  {[ "library" := [pickle_po];
     "folder" := [c_po; a_po; b_po];
     "fuzzy" := [half_po; most_po];
     "done" := [done_po] ]}.

Definition reservations : gmap string string :=
  {[ "library/pickle.po" := "Bob" ]}.

Definition get_reservation_list (repo_path : string)
    : string + gmap string string := inr reservations.

Definition get_po_files_from_repo (repo_path : string)
    : string + gmap string (list PoFileStats) := inr repo.

(** The repository of the example: one directory, files at 100, 50 and 30. *)
Definition folder_repo : gmap string (list PoFileStats) :=
  {[ "folder" := [c_po; a_po; b_po] ]}.

Definition get_folder_repo (repo_path : string)
    : string + gmap string (list PoFileStats) := inr folder_repo.




(** A collaborator that cannot reach the network. *)
Definition unreachable (repo_path : string) : string + gmap string string :=
  inl "unreachable".

End Sample.

Section Potodo.

(** The collaborators of [potodo.py] that live in other modules, and
    [str.lower] (Unicode case mapping). *)
Variable get_reservation_list : string -> string + gmap string string.
Variable get_po_files_from_repo :
  string -> string + gmap string (list PoFileStats).
(** [PoFileStats.__lt__] *)
Variable po_file_lt : PoFileStats -> PoFileStats -> bool.
Variable str_lower : string -> string.

(** [x] after [if not x: x = d]. *)
Definition or_default (x : option Z) (d : Z) : Z :=
  match x with
  | Some n => if truthy x then n else d
  | None => d
  end.

Definition initialize_arguments (above below : option Z)
    (offline hide_reserved : bool) (repo_path : string)
    : result (Z * Z * gmap string string) :=
  let above := or_default above 0 in
  let below := or_default below 100 in
  let* _ :=
    if nonzero above && nonzero below then
      if below <? above
      then raise (ValueError "Below must be inferior to above")
      else ret tt
    else ret tt in
  let* issue_reservations :=
    if negb offline && negb hide_reserved
    then from_external (get_reservation_list repo_path)
    else ret ∅ in
  ret (above, below, issue_reservations).

(** The test at the head of [buffer_add]: the file is not shown. *)
Definition hidden (above below : Z) (po_file_stats : PoFileStats) : bool :=
  (percent_translated po_file_stats =? 100)
  || (percent_translated po_file_stats <? above)
  || (percent_translated po_file_stats >? below).

(** The descriptor [buffer_add] builds for a file it shows. *)
Definition describe (po_file_stats : PoFileStats)
    (issue_reservations : gmap string string) (counts json_format : bool)
    : result value :=
  let fuzzy_nb :=
    if nonempty (fuzzy_entries po_file_stats)
    then fuzzy_nb po_file_stats else 0 in
  let translated_nb := translated_nb po_file_stats in
  let po_file_size := po_file_size po_file_stats in
  let percent_translated := percent_translated po_file_stats in
  let reserved_by :=
    issue_reservations !! str_lower (filename_dir po_file_stats) in
  if json_format then
    ret (VDict
      [ ("name", VStr (directory po_file_stats +:+ "/"
                       +:+ strip ".po" (filename po_file_stats)));
        ("path", VStr (path po_file_stats));
        ("entries", VInt po_file_size);
        ("fuzzies", VInt fuzzy_nb);
        ("translated", VInt translated_nb);
        ("pc_translated", VInt percent_translated);
        ("reserved_by",
          match reserved_by with
          | Some who => VStr who
          | None => VNone
          end) ])
  else
    let desc := "- " +:+ ljust 30 (filename po_file_stats) +:+ " " in
    let* desc :=
      if counts then
        let missing :=
          Z.of_nat (length (fuzzy_entries po_file_stats))
          + Z.of_nat (length (untranslated_entries po_file_stats)) in
        let desc := desc +:+ format_d 3 missing +:+ " to do" in
        ret (desc +:+ if nonzero fuzzy_nb
                     then ", including " +:+ str_of_int fuzzy_nb +:+ " fuzzies."
                     else "")
      else
        let desc :=
          desc +:+ format_d 3 translated_nb +:+ " / "
               +:+ format_d 3 po_file_size +:+ " " in
        let* pc := format_wf 5 1 (NInt percent_translated) in
        let desc := desc +:+ "(" +:+ pc +:+ "% translated)" in
        ret (desc +:+ if nonzero fuzzy_nb
                     then ", " +:+ str_of_int fuzzy_nb +:+ " fuzzy"
                     else "") in
    ret (VStr match reserved_by with
              | Some who => desc +:+ ", réservé par " +:+ who
              | None => desc
              end).

Definition buffer_add (st : dir_state) (po_file_stats : PoFileStats)
    (issue_reservations : gmap string string) (above below : Z)
    (counts json_format : bool) : result dir_state :=
  if hidden above below po_file_stats then
    ret {| buffer := buffer st;
           folder_stats :=
             folder_stats st ++ [percent_translated po_file_stats];
           printed_list :=
             if negb json_format
             then printed_list st ++ [false]
             else printed_list st |}
  else
    let* desc := describe po_file_stats issue_reservations counts json_format in
    ret {| buffer := buffer st ++ [desc];
           folder_stats :=
             folder_stats st ++ [percent_translated po_file_stats];
           printed_list := printed_list st ++ [true] |}.

Definition print_dir_stats (directory_name : string) (buffer : list value)
    (folder_stats : list Z) (printed_list : list bool) : io unit :=
  if True_in printed_list then
    let! done := io_lift (let* m := mean folder_stats in format_f 2 m) in
    let! _ := print (PrintStr (nl +:+ nl +:+ "# " +:+ directory_name
                               +:+ " (" +:+ done +:+ "% done)" +:+ nl)) in
    let! body := io_lift (join_values nl buffer) in
    print (PrintStr body)
  else io_ret tt.

(** [all_stats] after the call. *)
Definition add_dir_stats (directory_name : string) (buffer : list value)
    (folder_stats : list Z) (printed_list : list bool)
    (all_stats : list value) : result (list value) :=
  if any printed_list then
    let* m := mean folder_stats in
    let* x := float_of_number m in
    ret (all_stats ++
         [VDict [ ("name", VStr (directory_name +:+ "/"));
                  ("pc_translated", VFloat (float_of_format_f 2 x));
                  ("files", VList buffer) ]])
  else ret all_stats.

(** The inner loop of [exec_potodo], over the sorted files of a directory. *)
Fixpoint po_files_loop (po_files : list PoFileStats)
    (issue_reservations : gmap string string) (above below : Z)
    (fuzzy counts json_format : bool) (st : dir_state) : result dir_state :=
  match po_files with
  | [] => ret st
  | po_file :: rest =>
      let* st :=
        if negb fuzzy || nonempty (fuzzy_entries po_file)
        then buffer_add st po_file issue_reservations above below
                        counts json_format
        else ret st in
      po_files_loop rest issue_reservations above below
                    fuzzy counts json_format st
  end.

(** The outer loop, over the sorted items of the directory mapping;
    [dir_stats] is threaded through. *)
Fixpoint directories_loop (items : list (string * list PoFileStats))
    (issue_reservations : gmap string string) (above below : Z)
    (fuzzy counts json_format : bool) (dir_stats : list value)
    : io (list value) :=
  match items with
  | [] => io_ret dir_stats
  | (directory_name, po_files) :: rest =>
      let! st := io_lift (po_files_loop (sorted po_file_lt po_files)
                            issue_reservations above below
                            fuzzy counts json_format empty_state) in
      let! dir_stats :=
        if json_format then
          io_lift (add_dir_stats directory_name (buffer st)
                     (folder_stats st) (printed_list st) dir_stats)
        else
          let! _ := print_dir_stats directory_name (buffer st)
                      (folder_stats st) (printed_list st) in
          io_ret dir_stats in
      directories_loop rest issue_reservations above below
                       fuzzy counts json_format dir_stats
  end.

(** [sorted(po_files_and_dirs.items())]: the keys of a mapping differ, so
    two items compare as their names do. *)
Definition sorted_items (po_files_and_dirs : gmap string (list PoFileStats))
    : list (string * list PoFileStats) :=
  sorted (fun x y => String.ltb (fst x) (fst y))
         (map_to_list po_files_and_dirs).

Definition exec_potodo (path : string) (above below : option Z)
    (fuzzy offline hide_reserved counts json_format : bool) : io unit :=
  let! (above, below, issue_reservations) :=
    io_lift (initialize_arguments above below offline hide_reserved path) in
  let! po_files_and_dirs :=
    io_lift (from_external (get_po_files_from_repo path)) in
  let! dir_stats :=
    directories_loop (sorted_items po_files_and_dirs) issue_reservations
                     above below fuzzy counts json_format [] in
  if json_format then print (PrintJson (VList dir_stats)) else io_ret tt.

(** ** The report in the words of the specification

    The files of a directory that pass the fuzzy-only filter are
    processed; those of them that the visibility rule lets through are
    shown; a directory is reported when it shows a file. *)

Definition valid_po (f : PoFileStats) : Prop :=
  percentage (percent_translated f).

Definition kept (fuzzy : bool) (f : PoFileStats) : bool :=
  negb fuzzy || nonempty (fuzzy_entries f).

Definition processed (fuzzy : bool) (po_files : list PoFileStats)
    : list PoFileStats :=
  List.filter (kept fuzzy) (sorted po_file_lt po_files).

Definition shown_files (above below : Z) (fuzzy : bool)
    (po_files : list PoFileStats) : list PoFileStats :=
  List.filter (fun f => negb (hidden above below f)) (processed fuzzy po_files).

Record dir_report : Type := {
    report_name : string;
    report_stats : list Z;
    report_files : list PoFileStats
  }.

Definition report_of (above below : Z) (fuzzy : bool)
    (item : string * list PoFileStats) : dir_report :=
  {| report_name := fst item;
     report_stats := map percent_translated (processed fuzzy (snd item));
     report_files := shown_files above below fuzzy (snd item) |}.

Definition reportable (r : dir_report) : bool := nonempty (report_files r).

Definition reports (above below : Z) (fuzzy : bool)
    (po_files_and_dirs : gmap string (list PoFileStats)) : list dir_report :=
  List.filter reportable
    (map (report_of above below fuzzy) (sorted_items po_files_and_dirs)).

(** Every file of the repository carries a percentage. *)
Definition valid_repo (po_files_and_dirs : gmap string (list PoFileStats))
    : Prop :=
  map_Forall (fun _ po_files => Forall valid_po po_files) po_files_and_dirs.

(** The strict order of directory names. *)
Definition name_lt (x y : string) : Prop := String.ltb x y = true.

(** The header of a directory in text mode. *)
Definition header (directory_name done : string) : string :=
  nl +:+ nl +:+ "# " +:+ directory_name +:+ " (" +:+ done +:+ "% done)" +:+ nl.

(** What text mode prints for a reported directory. *)
Definition render_text (issue_reservations : gmap string string)
    (counts : bool) (r : dir_report) : result (list printed) :=
  let* m := mean (report_stats r) in
  let* done := format_f 2 m in
  let* lines :=
    mapM (fun f => describe f issue_reservations counts false)
         (report_files r) in
  let* body := join_values nl lines in
  ret [PrintStr (header (report_name r) done); PrintStr body].

(** The record JSON mode appends for a reported directory. *)
Definition render_json (issue_reservations : gmap string string)
    (counts : bool) (r : dir_report) : result value :=
  let* m := mean (report_stats r) in
  let* x := float_of_number m in
  let* files :=
    mapM (fun f => describe f issue_reservations counts true)
         (report_files r) in
  ret (VDict [ ("name", VStr (report_name r +:+ "/"));
               ("pc_translated", VFloat (float_of_format_f 2 x));
               ("files", VList files) ]).

(** The flags the inner loop leaves in [printed_list]. *)
Definition flags (above below : Z) (fuzzy json_format : bool)
    (po_files : list PoFileStats) : list bool :=
  if json_format
  then map (fun _ => true)
           (List.filter (fun f => negb (hidden above below f))
                        (List.filter (kept fuzzy) po_files))
  else map (fun f => negb (hidden above below f))
           (List.filter (kept fuzzy) po_files).

(** [exec_potodo] never raises this one from [statistics.mean]. *)
Definition is_StatisticsError {A} (r : result A) : Prop :=
  exists msg, r = inl (StatisticsError msg).

(** The state [print_dir_stats] and [add_dir_stats] can rely on. *)
Definition stats_cover_flags (st : dir_state) : Prop :=
  True_in (printed_list st) = true -> folder_stats st <> [].

(** ** The entry point *)

(** What [parser.parse_args()] returns; [args_path] is [str(args.path)]
    when [-p] was given (a [Path] is always true). *)
Record Namespace : Type := {
  args_path : option string;
  args_above : option Z;
  args_below : option Z;
  args_fuzzy : bool;
  args_offline : bool;
  args_no_reserved : bool;
  args_counts : bool;
  args_json : bool
}.

(** [main] from [parser.parse_args()] on; [cwd] is [os.getcwd()]. *)
Definition main (cwd : string) (args : Namespace) : io unit :=
  let path :=
    match args_path args with
    | Some p => p
    | None => cwd
    end in
  exec_potodo path (args_above args) (args_below args) (args_fuzzy args)
              (args_offline args) (args_no_reserved args) (args_counts args)
              (args_json args).

(** ** Reading the output *)

(** [d.get(key)] on the items of a dict, and on a value that is one. *)
Fixpoint items_get (key : string) (items : list (string * value))
    : option value :=
  match items with
  | [] => None
  | (k, v) :: items' => if String.eqb k key then Some v else items_get key items'
  end.

Definition dict_get (key : string) (v : value) : option value :=
  match v with
  | VDict items => items_get key items
  | _ => None
  end.

(** The keys of a dict, in their order. *)
Definition dict_keys (v : value) : list string :=
  match v with
  | VDict items => map fst items
  | _ => []
  end.

Definition is_str (v : value) : Prop := exists s, v = VStr s.

(** [r] raises nothing but exceptions in [P]. *)
Definition raises_only {A} (P : exn -> Prop) (r : result A) : Prop :=
  forall e, r = inl e -> P e.

Definition is_OverflowError (e : exn) : Prop := exists msg, e = OverflowError msg.

(** The exceptions a run can end with. *)
Definition run_exn (e : exn) : Prop :=
  e = ValueError "Below must be inferior to above"
  \/ (exists msg, e = ExternalError msg)
  \/ is_OverflowError e.

(** A file that leaves nothing in the buffer: skipped by the fuzzy-only
    filter or hidden by the visibility rule. *)
Definition unshown (above below : Z) (fuzzy : bool) (f : PoFileStats) : Prop :=
  kept fuzzy f = false \/ hidden above below f = true.

(** The characters [strip('.po')] takes. *)
Definition po_char (c : ascii) : bool := mem_char c ".po".

(** * Facts about the built-ins *)

Lemma rbind_inr {A B} (m : result A) (k : A -> result B) (b : B) :
  rbind m k = inr b -> exists a, m = inr a /\ k a = inr b.
Proof. destruct m as [e|a]; simpl; [discriminate | eauto]. Qed.

Section SortedFacts.
Context {A : Type} (lt : A -> A -> bool).

Lemma insort_Permutation (x : A) (l : list A) : insort lt x l ≡ₚ x :: l.
Proof.
  induction l as [|y l IH]; simpl; [done|].
  destruct (lt x y); [done|]. rewrite IH. apply Permutation_swap.
Qed.

Lemma sorted_from_Permutation (l acc : list A) :
  foldl (fun acc x => insort lt x acc) acc l ≡ₚ acc ++ l.
Proof.
  revert acc. induction l as [|x l IH]; intros acc; simpl.
  - by rewrite app_nil_r.
  - rewrite IH, insort_Permutation. simpl. apply Permutation_middle.
Qed.

Lemma sorted_Permutation (l : list A) : sorted lt l ≡ₚ l.
Proof. apply (sorted_from_Permutation l []). Qed.

Lemma sorted_In (x : A) (l : list A) : In x (sorted lt l) <-> In x l.
Proof.
  split; apply Permutation_in;
    [apply sorted_Permutation | symmetry; apply sorted_Permutation].
Qed.

Context (before_trans : Transitive (before lt))
        (before_total : Total (before lt)).

Lemma insort_StronglySorted (x : A) (l : list A) :
  StronglySorted (before lt) l -> StronglySorted (before lt) (insort lt x l).
Proof.
  induction 1 as [|y l Hl IH Hy]; simpl.
  - repeat constructor.
  - destruct (lt x y) eqn:Hxy.
    + assert (before lt x y) as Hb.
      { destruct (before_total x y) as [H|H]; [done|].
        unfold before in H. congruence. }
      constructor; [by constructor|].
      constructor; [done|].
      eapply Forall_impl; [exact Hy|]. intros z Hz. by etrans.
    + constructor; [done|].
      rewrite insort_Permutation. by constructor.
Qed.

Lemma sorted_StronglySorted (l : list A) :
  StronglySorted (before lt) (sorted lt l).
Proof.
  unfold sorted.
  assert (StronglySorted (before lt) []) as Hnil by constructor.
  revert Hnil. generalize (@nil A) as acc.
  induction l as [|x l IH]; intros acc Hacc; simpl; [done|].
  apply IH. by apply insort_StronglySorted.
Qed.
End SortedFacts.

Lemma overflow_bound_large : 100 < overflow_bound.
Proof. reflexivity. Qed.

Lemma float_of_int_percentage (n : Z) :
  percentage n -> float_of_int n = inr (round_ratio false n 1).
Proof.
  intros [H0 H100]. unfold float_of_int.
  pose proof overflow_bound_large as Hb.
  destruct (Z.leb_spec overflow_bound (Z.abs n)) as [Hle|_]; [lia|].
  rewrite Z.abs_eq by done.
  by destruct (Z.ltb_spec n 0) as [?|_]; [lia|].
Qed.

Lemma sum_Z_percentages (data : list Z) :
  Forall percentage data -> 0 <= sum_Z data <= 100 * Z.of_nat (length data).
Proof.
  induction 1 as [|p data [??] _ IH]; simpl; [lia|].
  fold (sum_Z data). lia.
Qed.


Lemma fraction_mean_percentages (data : list Z) :
  data <> [] -> Forall percentage data ->
  0 <= Qnum (fraction_mean data) <= 100 * Zpos (Qden (fraction_mean data)).
Proof.
  intros Hne Hall. pose proof (sum_Z_percentages data Hall) as Hsum.
  unfold fraction_mean.
  pose proof (Qred_correct (sum_Z data # Pos.of_nat (length data))) as Heq.
  set (q := Qred _) in *. clearbody q.
  unfold Qeq in Heq. cbn [Qnum Qden] in Heq.
  assert (Zpos (Pos.of_nat (length data)) = Z.of_nat (length data)) as Hn.
  { destruct data as [|p data]; [done|]. simpl length.
    by rewrite <- Pos.of_nat_succ, Zpos_P_of_succ_nat, <- Nat2Z.inj_succ. }
  rewrite Hn in Heq.
  assert (0 < Z.of_nat (length data)) by (destruct data; [done|simpl; lia]).
  set (n := Z.of_nat (length data)) in *. clearbody n.
  pose proof (Pos2Z.is_pos (Qden q)). nia.
Qed.

(** On percentages [statistics.mean] and the two-decimal formats succeed. *)
Lemma mean_percentages (data : list Z) :
  data <> [] -> Forall percentage data ->
  exists m x, mean data = inr m /\ float_of_number m = inr x.
Proof.
  intros Hne Hall.
  pose proof (fraction_mean_percentages data Hne Hall) as [H0 H100].
  pose proof overflow_bound_large as Hb.
  unfold mean. destruct data as [|p data]; [done|].
  set (q := fraction_mean (p :: data)) in *. clearbody q.
  destruct (Pos.eqb_spec (Qden q) 1) as [Hd|Hd].
  - eexists _, _. split; [done|]. simpl.
    apply float_of_int_percentage. rewrite Hd in H100. split; lia.
  - unfold int_true_divide.
    destruct (Z.leb_spec (overflow_bound * Z.pos (Qden q)) (Z.abs (Qnum q)))
      as [Hle|_].
    + pose proof (Pos2Z.is_pos (Qden q)). rewrite Z.abs_eq in Hle by done. nia.
    + simpl. eauto.
Qed.

Lemma format_f_float (prec : nat) (m : number) (x : spec_float) :
  float_of_number m = inr x -> format_f prec m = inr (format_float_f prec x).
Proof. unfold format_f. by intros ->. Qed.

Lemma format_wf_percentage (w prec : nat) (n : Z) :
  percentage n ->
  format_wf w prec (NInt n)
  = inr (rjust w (format_float_f prec (round_ratio false n 1))).
Proof.
  intros Hn. unfold format_wf, format_f. cbn [float_of_number].
  by rewrite (float_of_int_percentage n Hn).
Qed.

(** ** The floats of a mean and their two decimals *)









Lemma fexp_eq (x : Z) : fexp float_prec float_emax x = Z.max (x - 53) (-1074).
Proof. reflexivity. Qed.







(** * Facts about the engine *)

(** In JSON mode the descriptor is a record with seven keys. *)
Lemma describe_json (f : PoFileStats) (res : gmap string string) (counts : bool) :
  describe f res counts true
  = inr (VDict
      [ ("name", VStr (directory f +:+ "/" +:+ strip ".po" (filename f)));
        ("path", VStr (path f));
        ("entries", VInt (po_file_size f));
        ("fuzzies",
          VInt (if nonempty (fuzzy_entries f) then fuzzy_nb f else 0));
        ("translated", VInt (translated_nb f));
        ("pc_translated", VInt (percent_translated f));
        ("reserved_by",
          match res !! str_lower (filename_dir f) with
          | Some who => VStr who
          | None => VNone
          end) ]).
Proof. reflexivity. Qed.

(** In text mode the descriptor is a line. *)
Lemma describe_text_str (f : PoFileStats) (res : gmap string string)
    (counts : bool) (v : value) :
  describe f res counts false = inr v -> exists line, v = VStr line.
Proof.
  unfold describe. cbn [negb]. intros H.
  apply rbind_inr in H as (desc & _ & H). injection H as <-. eauto.
Qed.

(** The descriptor of a file with a percentage can be built. *)
Lemma describe_valid (f : PoFileStats) (res : gmap string string)
    (counts json_format : bool) :
  valid_po f -> exists v, describe f res counts json_format = inr v.
Proof.
  intros Hf. destruct json_format; [rewrite describe_json; eauto|].
  unfold describe. destruct counts.
  - cbn [rbind ret]. eauto.
  - rewrite (format_wf_percentage 5 1 _ Hf). cbn [rbind ret]. eauto.
Qed.

Lemma describe_not_StatisticsError (f : PoFileStats) (res : gmap string string)
    (counts json_format : bool) :
  ~ is_StatisticsError (describe f res counts json_format).
Proof.
  intros [msg H]. destruct json_format; [by rewrite describe_json in H|].
  unfold describe in H. destruct counts; [done|].
  unfold format_wf, format_f in H. cbn [float_of_number] in H.
  unfold float_of_int in H.
  destruct (overflow_bound <=? _); simpl in H; discriminate.
Qed.

(** What [buffer_add] does to the three lists. *)
Lemma buffer_add_hidden (st : dir_state) (f : PoFileStats)
    (res : gmap string string) (above below : Z) (counts json_format : bool) :
  hidden above below f = true ->
  buffer_add st f res above below counts json_format
  = inr {| buffer := buffer st;
           folder_stats := folder_stats st ++ [percent_translated f];
           printed_list := if json_format then printed_list st
                           else printed_list st ++ [false] |}.
Proof. unfold buffer_add. intros ->. by destruct json_format. Qed.

Lemma buffer_add_shown (st : dir_state) (f : PoFileStats)
    (res : gmap string string) (above below : Z) (counts json_format : bool) :
  hidden above below f = false ->
  buffer_add st f res above below counts json_format
  = (let* desc := describe f res counts json_format in
     ret {| buffer := buffer st ++ [desc];
            folder_stats := folder_stats st ++ [percent_translated f];
            printed_list := printed_list st ++ [true] |}).
Proof. unfold buffer_add. by intros ->. Qed.

Lemma hidden_false_iff (above below : Z) (f : PoFileStats) :
  hidden above below f = false
  <-> percent_translated f <> 100
      /\ above <= percent_translated f <= below.
Proof.
  clear get_reservation_list get_po_files_from_repo po_file_lt str_lower.
  unfold hidden. rewrite !orb_false_iff, Z.eqb_neq, Z.ltb_ge, Z.gtb_ltb, Z.ltb_ge.
  tauto.
Qed.

(** The inner loop, on files with percentages. *)
Lemma po_files_loop_valid (po_files : list PoFileStats)
    (res : gmap string string) (above below : Z)
    (fuzzy counts json_format : bool) (st : dir_state) :
  Forall valid_po po_files ->
  exists descs,
    mapM (fun f => describe f res counts json_format)
         (List.filter (fun f => negb (hidden above below f))
                      (List.filter (kept fuzzy) po_files)) = inr descs
    /\ po_files_loop po_files res above below fuzzy counts json_format st
       = inr {| buffer := buffer st ++ descs;
                folder_stats :=
                  folder_stats st
                  ++ map percent_translated (List.filter (kept fuzzy) po_files);
                printed_list :=
                  printed_list st
                  ++ flags above below fuzzy json_format po_files |}.
Proof.
  intros Hall. revert st.
  induction Hall as [|f po_files Hf _ IH]; intros st.
  - exists []. split; [done|]. unfold flags. destruct st, json_format; simpl;
      by rewrite !app_nil_r.
  - unfold flags in *. cbn [po_files_loop List.filter]. fold (kept fuzzy f).
    destruct (kept fuzzy f) eqn:Hk; cbn [List.filter map].
    + destruct (hidden above below f) eqn:Hh; cbn [negb List.filter map].
      * rewrite buffer_add_hidden by done. cbn [rbind].
        edestruct IH as (descs & Hd & ->). exists descs. split; [exact Hd|].
        cbn [buffer folder_stats printed_list].
        destruct json_format; cbn [negb map]; by rewrite <- ?app_assoc.
      * rewrite buffer_add_shown by done.
        destruct (describe_valid f res counts json_format Hf) as [v Hv].
        rewrite Hv. cbn [rbind ret mapM].
        edestruct IH as (descs & Hd & ->). exists (v :: descs).
        rewrite Hv, Hd. cbn [rbind ret]. split; [done|].
        cbn [buffer folder_stats printed_list].
        destruct json_format; cbn [negb map]; by rewrite <- ?app_assoc.
    + cbn [rbind ret]. apply IH.
Qed.

Lemma True_in_flags (above below : Z) (fuzzy json_format : bool)
    (po_files : list PoFileStats) :
  True_in (flags above below fuzzy json_format po_files)
  = nonempty (List.filter (fun f => negb (hidden above below f))
                          (List.filter (kept fuzzy) po_files)).
Proof.
  unfold flags, True_in. generalize (List.filter (kept fuzzy) po_files) as l.
  induction l as [|f l IH]; [by destruct json_format|].
  destruct json_format; cbn [List.filter map existsb] in *;
    destruct (negb (hidden above below f)); cbn [map existsb orb nonempty];
    try done; rewrite IH; done.
Qed.

Lemma strings_of_lines (res : gmap string string) (counts : bool)
    (l : list PoFileStats) (descs : list value) (i : nat) :
  mapM (fun f => describe f res counts false) l = inr descs ->
  exists lines, strings_of i descs = inr lines /\ descs = map VStr lines.
Proof.
  revert descs i. induction l as [|f l IH]; intros descs i; cbn [mapM].
  - intros [= <-]. by exists [].
  - intros H. apply rbind_inr in H as (v & Hv & H).
    apply rbind_inr in H as (vs & Hvs & [= <-]).
    destruct (describe_text_str _ _ _ _ Hv) as [line ->].
    destruct (IH vs (S i) Hvs) as (lines & Hl & ->).
    exists (line :: lines). cbn [strings_of map]. by rewrite Hl.
Qed.

Lemma sorted_valid (po_files : list PoFileStats) :
  Forall valid_po po_files -> Forall valid_po (sorted po_file_lt po_files).
Proof. intros H. by rewrite sorted_Permutation. Qed.

Lemma processed_stats (above below : Z) (fuzzy : bool)
    (po_files : list PoFileStats) :
  Forall valid_po po_files ->
  shown_files above below fuzzy po_files <> [] ->
  map percent_translated (processed fuzzy po_files) <> []
  /\ Forall percentage (map percent_translated (processed fuzzy po_files)).
Proof.
  intros Hall Hne. split.
  - unfold shown_files in Hne. destruct (processed fuzzy po_files); done.
  - apply Forall_map. unfold processed.
    apply sorted_valid in Hall. rewrite List.Forall_forall in Hall.
    apply List.Forall_forall. intros f [Hf _]%filter_In. by apply Hall.
Qed.

Lemma nonempty_true {A} (l : list A) : nonempty l = true <-> l <> [].
Proof. by destruct l. Qed.

(** One turn of the outer loop in text mode. *)
Lemma directory_text (directory_name : string) (po_files : list PoFileStats)
    (res : gmap string string) (above below : Z) (fuzzy counts : bool) :
  Forall valid_po po_files ->
  let r := report_of above below fuzzy (directory_name, po_files) in
  exists st,
    po_files_loop (sorted po_file_lt po_files) res above below
                  fuzzy counts false empty_state = inr st
    /\ if reportable r
       then exists chunk,
              render_text res counts r = inr chunk
              /\ print_dir_stats directory_name (buffer st) (folder_stats st)
                                 (printed_list st) = (chunk, inr tt)
       else print_dir_stats directory_name (buffer st) (folder_stats st)
                            (printed_list st) = ([], inr tt).
Proof.
  intros Hall r.
  destruct (po_files_loop_valid (sorted po_file_lt po_files) res above below
              fuzzy counts false empty_state (sorted_valid _ Hall))
    as (descs & Hd & Hloop).
  eexists. split; [exact Hloop|].
  unfold print_dir_stats. cbn [buffer folder_stats printed_list empty_state app].
  rewrite True_in_flags. unfold reportable, r, report_of.
  cbn [report_files report_stats report_name fst snd].
  fold (processed fuzzy po_files). fold (shown_files above below fuzzy po_files).
  destruct (nonempty (shown_files above below fuzzy po_files)) eqn:Hne; [|done].
  apply nonempty_true in Hne.
  destruct (processed_stats above below fuzzy po_files Hall Hne) as [Hs1 Hs2].
  destruct (mean_percentages _ Hs1 Hs2) as (m & x & Hm & Hx).
  destruct (strings_of_lines _ _ _ _ 0%nat Hd) as (lines & Hl & ->).
  unfold render_text. cbn [report_files report_stats report_name fst snd].
  unfold shown_files, processed in *.
  rewrite Hm. cbn [rbind]. rewrite (format_f_float 2 m x Hx). cbn [rbind].
  rewrite Hd. cbn [rbind]. unfold join_values. rewrite Hl.
  cbn [rbind ret]. eexists. split; [reflexivity|].
  unfold io_lift, print, io_bind. cbn [rbind ret]. reflexivity.
Qed.

(** One turn of the outer loop in JSON mode. *)
Lemma directory_json (directory_name : string) (po_files : list PoFileStats)
    (res : gmap string string) (above below : Z) (fuzzy counts : bool)
    (dir_stats : list value) :
  Forall valid_po po_files ->
  let r := report_of above below fuzzy (directory_name, po_files) in
  exists st,
    po_files_loop (sorted po_file_lt po_files) res above below
                  fuzzy counts true empty_state = inr st
    /\ if reportable r
       then exists record,
              render_json res counts r = inr record
              /\ add_dir_stats directory_name (buffer st) (folder_stats st)
                               (printed_list st) dir_stats
                 = inr (dir_stats ++ [record])
       else add_dir_stats directory_name (buffer st) (folder_stats st)
                          (printed_list st) dir_stats = inr dir_stats.
Proof.
  intros Hall r.
  destruct (po_files_loop_valid (sorted po_file_lt po_files) res above below
              fuzzy counts true empty_state (sorted_valid _ Hall))
    as (descs & Hd & Hloop).
  eexists. split; [exact Hloop|].
  unfold add_dir_stats, any.
  cbn [buffer folder_stats printed_list empty_state app].
  fold (True_in (flags above below fuzzy true (sorted po_file_lt po_files))).
  rewrite True_in_flags. unfold reportable, r, report_of.
  cbn [report_files report_stats report_name fst snd].
  fold (processed fuzzy po_files). fold (shown_files above below fuzzy po_files).
  destruct (nonempty (shown_files above below fuzzy po_files)) eqn:Hne; [|done].
  apply nonempty_true in Hne.
  destruct (processed_stats above below fuzzy po_files Hall Hne) as [Hs1 Hs2].
  destruct (mean_percentages _ Hs1 Hs2) as (m & x & Hm & Hx).
  unfold render_json. cbn [report_files report_stats report_name fst snd].
  unfold shown_files, processed in *.
  rewrite Hm. cbn [rbind]. rewrite Hx, Hd. cbn [rbind ret]. eauto.
Qed.

(** The outer loop in text mode prints the reported directories in turn. *)
Lemma directories_loop_text (items : list (string * list PoFileStats))
    (res : gmap string string) (above below : Z) (fuzzy counts : bool)
    (dir_stats : list value) :
  Forall (fun item => Forall valid_po (snd item)) items ->
  exists chunks,
    mapM (render_text res counts)
         (List.filter reportable (map (report_of above below fuzzy) items))
    = inr chunks
    /\ directories_loop items res above below fuzzy counts false dir_stats
       = (concat chunks, inr dir_stats).
Proof.
  induction 1 as [|[d po_files] items Hv _ IH].
  - by exists [].
  - cbn [snd] in Hv. destruct IH as (chunks & Hc & Hloop).
    destruct (directory_text d po_files res above below fuzzy counts Hv)
      as (st & Hst & Hprint).
    cbn [directories_loop map List.filter]. rewrite Hst.
    cbn [io_lift io_bind negb].
    destruct (reportable (report_of above below fuzzy (d, po_files))).
    + destruct Hprint as (chunk & Hr & ->). exists (chunk :: chunks).
      cbn [mapM]. rewrite Hr, Hc. split; [done|].
      cbn [io_bind io_ret app]. rewrite Hloop. by rewrite app_nil_r.
    + rewrite Hprint. exists chunks. split; [done|].
      cbn [io_bind io_ret app]. by rewrite Hloop.
Qed.

(** The outer loop in JSON mode appends their records and prints nothing. *)
Lemma directories_loop_json (items : list (string * list PoFileStats))
    (res : gmap string string) (above below : Z) (fuzzy counts : bool)
    (dir_stats : list value) :
  Forall (fun item => Forall valid_po (snd item)) items ->
  exists records,
    mapM (render_json res counts)
         (List.filter reportable (map (report_of above below fuzzy) items))
    = inr records
    /\ directories_loop items res above below fuzzy counts true dir_stats
       = ([], inr (dir_stats ++ records)).
Proof.
  intros Hall. revert dir_stats.
  induction Hall as [|[d po_files] items Hv _ IH]; intros dir_stats.
  - exists []. by rewrite app_nil_r.
  - cbn [snd] in Hv.
    destruct (directory_json d po_files res above below fuzzy counts dir_stats Hv)
      as (st & Hst & Hadd).
    cbn [directories_loop map List.filter]. rewrite Hst.
    cbn [io_lift io_bind negb].
    destruct (reportable (report_of above below fuzzy (d, po_files))).
    + destruct Hadd as (record & Hr & Hadd).
      destruct (IH (dir_stats ++ [record])) as (records & Hc & Hloop).
      exists (record :: records). cbn [mapM]. rewrite Hr, Hc. split; [done|].
      rewrite Hadd. cbn [io_bind app]. rewrite Hloop.
      by rewrite <- app_assoc.
    + destruct (IH dir_stats) as (records & Hc & Hloop).
      exists records. split; [done|].
      rewrite Hadd. cbn [io_bind app]. by rewrite Hloop.
Qed.

(** ** The order of the directories *)

Lemma ltb_false_le (x y : string) : String.ltb y x = false <-> String.le x y.
Proof.
  unfold String.le, String.ltb, String.leb.
  rewrite (String.compare_antisym x y).
  destruct (y ?= x)%string; simpl; split; done.
Qed.

Lemma le_ne_lt (x y : string) : String.le x y -> x <> y -> name_lt x y.
Proof.
  unfold String.le, String.leb, name_lt, String.ltb. intros Hle Hne.
  destruct (x ?= y)%string eqn:Hc; [|done|done].
  by apply String.compare_eq_iff in Hc.
Qed.

Lemma StronglySorted_weaken {A} (R S : A -> A -> Prop) (l : list A) :
  (forall x y, R x y -> S x y) -> StronglySorted R l -> StronglySorted S l.
Proof.
  intros HRS. induction 1 as [|x l _ IH Hx]; constructor; [done|].
  eapply Forall_impl; [exact Hx|]. intros y. apply HRS.
Qed.

Lemma sorted_items_Permutation (m : gmap string (list PoFileStats)) :
  sorted_items m ≡ₚ map_to_list m.
Proof. apply sorted_Permutation. Qed.

Lemma sorted_items_In (m : gmap string (list PoFileStats)) (d : string)
    (po_files : list PoFileStats) :
  In (d, po_files) (sorted_items m) <-> m !! d = Some po_files.
Proof.
  unfold sorted_items. rewrite sorted_In, <- list_elem_of_In.
  apply elem_of_map_to_list.
Qed.

Lemma sorted_items_StronglySorted (m : gmap string (list PoFileStats)) :
  StronglySorted (fun x y => name_lt (fst x) (fst y)) (sorted_items m).
Proof.
  assert (NoDup (map fst (sorted_items m))) as Hnd.
  { rewrite sorted_items_Permutation. apply NoDup_fst_map_to_list. }
  assert (StronglySorted (fun x y => String.le (fst x) (fst y)) (sorted_items m))
    as Hs.
  { eapply StronglySorted_weaken;
      [|apply (sorted_StronglySorted (fun x y => String.ltb (fst x) (fst y)))].
    - intros x y Hb. by apply ltb_false_le.
    - intros x y z Hxy Hyz. unfold before in *.
      apply ltb_false_le in Hxy, Hyz. apply ltb_false_le. by etrans.
    - intros x y. unfold before.
      destruct (total String.le (fst x) (fst y)) as [H|H];
        apply ltb_false_le in H; auto. }
  revert Hnd. induction Hs as [|x l _ IH Hx]; intros Hnd; [constructor|].
  cbn [map] in Hnd. apply NoDup_cons in Hnd as [Hnin Hnd].
  constructor; [by apply IH|].
  apply List.Forall_forall. intros y Hy.
  rewrite List.Forall_forall in Hx. apply le_ne_lt; [by apply Hx|].
  intros Heq. apply Hnin. rewrite Heq. apply list_elem_of_In.
  by apply in_map.
Qed.

Lemma StronglySorted_filter_map {A B} (R : B -> B -> Prop) (f : A -> B)
    (p : A -> bool) (l : list A) :
  StronglySorted (fun x y => R (f x) (f y)) l ->
  StronglySorted R (map f (List.filter p l)).
Proof.
  induction 1 as [|x l _ IH Hx]; cbn [List.filter map]; [constructor|].
  destruct (p x); [|done]. cbn [map]. constructor; [done|].
  apply Forall_map, List.Forall_forall. intros y [Hy _]%filter_In.
  rewrite List.Forall_forall in Hx. by apply Hx.
Qed.

(** The reported directories come in the strict order of their names. *)
Lemma reports_sorted (above below : Z) (fuzzy : bool)
    (m : gmap string (list PoFileStats)) :
  StronglySorted name_lt (map report_name (reports above below fuzzy m)).
Proof.
  unfold reports.
  apply (StronglySorted_filter_map name_lt report_name reportable).
  pose proof (sorted_items_StronglySorted m) as Hs.
  induction Hs as [|x l _ IH Hx]; cbn [map]; constructor; [done|].
  by apply Forall_map.
Qed.

(** A directory is reported when one of its files passes the fuzzy-only
  filter and the visibility rule. *)
Lemma reports_In (above below : Z) (fuzzy : bool)
    (m : gmap string (list PoFileStats)) (r : dir_report) :
  In r (reports above below fuzzy m)
  <-> exists po_files,
        m !! report_name r = Some po_files
        /\ r = report_of above below fuzzy (report_name r, po_files)
        /\ exists f, In f po_files /\ kept fuzzy f = true
                     /\ hidden above below f = false.
Proof.
  unfold reports. rewrite filter_In, in_map_iff. split.
  - intros [([d po_files] & <- & Hin) Hrep]. exists po_files.
    apply sorted_items_In in Hin. cbn [report_of report_name fst].
    split; [done|]. split; [done|].
    unfold reportable in Hrep. cbn [report_of report_files snd] in Hrep.
    destruct (shown_files above below fuzzy po_files) as [|f l] eqn:Hs; [done|].
    assert (In f (shown_files above below fuzzy po_files)) as Hf
      by (rewrite Hs; by left).
    unfold shown_files, processed in Hf.
    apply filter_In in Hf as [[Hf Hk]%filter_In Hh].
    exists f. rewrite sorted_In in Hf. by apply negb_true_iff in Hh.
  - intros (po_files & Hm & Hr & f & Hf & Hk & Hh). split.
    + exists (report_name r, po_files). split; [done|].
      by apply sorted_items_In.
    + rewrite Hr. unfold reportable. cbn [report_of report_files snd].
      apply nonempty_true. intros Hnil.
      assert (In f (shown_files above below fuzzy po_files)) as Hin.
      { unfold shown_files, processed. apply filter_In. split.
        - apply filter_In. by rewrite sorted_In.
        - by rewrite Hh. }
      by rewrite Hnil in Hin.
Qed.

(** ** The whole run on a repository of files with percentages *)

Lemma valid_repo_items (m : gmap string (list PoFileStats)) :
  valid_repo m ->
  Forall (fun item => Forall valid_po (snd item)) (sorted_items m).
Proof.
  intros Hm. rewrite sorted_items_Permutation.
  apply map_Forall_to_list in Hm.
  eapply Forall_impl; [exact Hm|]. by intros [d po_files].
Qed.

Lemma exec_potodo_text (path : string) (above below : option Z)
    (fuzzy offline hide_reserved counts : bool) (a b : Z)
    (res : gmap string string) (m : gmap string (list PoFileStats)) :
  initialize_arguments above below offline hide_reserved path = inr (a, b, res) ->
  get_po_files_from_repo path = inr m ->
  valid_repo m ->
  exists chunks,
    mapM (render_text res counts) (reports a b fuzzy m) = inr chunks
    /\ exec_potodo path above below fuzzy offline hide_reserved counts false
       = (concat chunks, inr tt).
Proof.
  intros Hinit Hget Hm. unfold exec_potodo. rewrite Hinit, Hget.
  cbn [io_lift io_bind from_external ret].
  destruct (directories_loop_text (sorted_items m) res a b fuzzy counts []
              (valid_repo_items m Hm)) as (chunks & Hc & ->).
  exists chunks. split; [exact Hc|].
  unfold io_bind, io_ret. cbn [app]. by rewrite ?app_nil_r.
Qed.

Lemma exec_potodo_json (path : string) (above below : option Z)
    (fuzzy offline hide_reserved counts : bool) (a b : Z)
    (res : gmap string string) (m : gmap string (list PoFileStats)) :
  initialize_arguments above below offline hide_reserved path = inr (a, b, res) ->
  get_po_files_from_repo path = inr m ->
  valid_repo m ->
  exists records,
    mapM (render_json res counts) (reports a b fuzzy m) = inr records
    /\ exec_potodo path above below fuzzy offline hide_reserved counts true
       = ([PrintJson (VList records)], inr tt).
Proof.
  intros Hinit Hget Hm. unfold exec_potodo. rewrite Hinit, Hget.
  cbn [io_lift io_bind from_external ret].
  destruct (directories_loop_json (sorted_items m) res a b fuzzy counts []
              (valid_repo_items m Hm)) as (records & Hc & ->).
  exists records. split; [exact Hc|]. unfold io_bind, print. by cbn [app].
Qed.

(** * The claims *)

Lemma or_default_below_nonzero (below : option Z) :
  nonzero (or_default below 100) = true.
Proof.
  unfold or_default, truthy. destruct below as [n|]; [|done].
  by destruct (nonzero n) eqn:H.
Qed.

(** C1. For every file processed by [buffer_add] under thresholds with
    [above <= below], the file is shown (a descriptor is appended to the
    buffer and [True] to the display-decision list) if and only if
    [above <= percent_translated <= below] and [percent_translated < 100];
    a file failing this test is not shown, but its percentage is still
    appended to the statistics list of the directory.  The percentage is one
    of the data model, between 0 and 100. *)
Theorem buffer_add_shown_iff (st : dir_state) (f : PoFileStats)
    (res : gmap string string) (above below : Z) (counts json_format : bool) :
  above <= below ->
  valid_po f ->
  exists st',
    buffer_add st f res above below counts json_format = inr st'
    /\ folder_stats st' = folder_stats st ++ [percent_translated f]
    /\ ((exists desc, buffer st' = buffer st ++ [desc]
                      /\ printed_list st' = printed_list st ++ [true])
        <-> above <= percent_translated f <= below
            /\ percent_translated f < 100)
    /\ (above <= percent_translated f <= below /\ percent_translated f < 100 ->
        exists desc, describe f res counts json_format = inr desc
                     /\ buffer st' = buffer st ++ [desc])
    /\ (~ (above <= percent_translated f <= below
           /\ percent_translated f < 100) ->
        buffer st' = buffer st
        /\ printed_list st'
           = if json_format then printed_list st else printed_list st ++ [false]).
Proof.
  clear get_reservation_list get_po_files_from_repo po_file_lt.
  intros _ [H0 H100]. destruct (hidden above below f) eqn:Hh.
  - assert (~ (above <= percent_translated f <= below
               /\ percent_translated f < 100)) as Hno.
    { intros [Hr Hlt]. assert (hidden above below f = false) as Hf; [|congruence].
      apply hidden_false_iff. split; [lia|done]. }
    rewrite buffer_add_hidden by done. eexists. split; [reflexivity|].
    cbn [buffer folder_stats printed_list]. split; [done|].
    split; [|split; [done|done]]. split; [|done].
    intros (desc & Hb & _). apply (f_equal length) in Hb.
    rewrite length_app in Hb. simpl in Hb. lia.
  - apply hidden_false_iff in Hh as Hyes. destruct Hyes as [Hne Hr].
    assert (above <= percent_translated f <= below
            /\ percent_translated f < 100) as Hyes by lia.
    destruct (describe_valid f res counts json_format (conj H0 H100)) as [v Hv].
    rewrite buffer_add_shown, Hv by done. cbn [rbind ret]. eexists.
    split; [reflexivity|]. cbn [buffer folder_stats printed_list].
    split; [done|]. split; [|split; [eauto|done]].
    split; [done|]. intros _. eauto.
Qed.

(** C3, amended. Whenever the effective [above] (absent or 0 gives 0) is not
    0 and exceeds the effective [below] (absent or 0 gives 100), the run
    fails with the [ValueError] of the invalid range before any file is
    read, and prints nothing. *)
Theorem nonzero_above_over_below_fails (path : string) (above below : option Z)
    (fuzzy offline hide_reserved counts json_format : bool) :
  or_default above 0 <> 0 ->
  or_default below 100 < or_default above 0 ->
  exec_potodo path above below fuzzy offline hide_reserved counts json_format
  = ([], inl (ValueError "Below must be inferior to above")).
Proof.
  intros Hnz Hlt. unfold exec_potodo, initialize_arguments.
  rewrite or_default_below_nonzero.
  replace (nonzero (or_default above 0)) with true
    by (unfold nonzero; symmetry; by apply negb_true_iff, Z.eqb_neq).
  cbn [andb]. by destruct (Z.ltb_spec (or_default below 100) (or_default above 0));
    [|lia].
Qed.

(** C6. With [fuzzy_only] set, a file without fuzzy entries is skipped
    before the visibility test: the run of the inner loop is the one
    without that file, so it leaves no descriptor, no entry in the
    statistics list and no flag; the files with a fuzzy entry are processed
    as they are without the option. *)
Theorem fuzzy_only_skips_files_without_fuzzy (res : gmap string string)
    (above below : Z) (counts json_format : bool) :
  (forall before_f f after_f st,
     fuzzy_entries f = [] ->
     po_files_loop (before_f ++ f :: after_f) res above below
                   true counts json_format st
     = po_files_loop (before_f ++ after_f) res above below
                     true counts json_format st)
  /\ (forall f st, fuzzy_entries f = [] ->
        po_files_loop [f] res above below true counts json_format st = inr st)
  /\ (forall f st, fuzzy_entries f <> [] ->
        po_files_loop [f] res above below true counts json_format st
        = buffer_add st f res above below counts json_format)
  /\ (forall po_files st,
        po_files_loop po_files res above below true counts json_format st
        = po_files_loop
            (List.filter (fun f => nonempty (fuzzy_entries f)) po_files)
            res above below false counts json_format st).
Proof.
  split; [|split; [|split]].
  - intros before_f f after_f st Hf. revert st.
    induction before_f as [|g before_f IH]; intros st.
    + cbn [app po_files_loop]. by rewrite Hf.
    + cbn [app po_files_loop].
      destruct (negb true || nonempty (fuzzy_entries g)); cbn [rbind ret]; [|done].
      destruct (buffer_add st g res above below counts json_format); by cbn [rbind].
  - intros f st Hf. cbn [po_files_loop]. by rewrite Hf.
  - intros f st Hf. cbn [po_files_loop].
    destruct (fuzzy_entries f); [done|]. cbn [negb orb nonempty].
    by destruct (buffer_add _ _ _ _ _ _ _).
  - intros po_files. induction po_files as [|f po_files IH]; intros st; [done|].
    cbn [po_files_loop List.filter negb orb].
    destruct (nonempty (fuzzy_entries f)) eqn:Hf.
    + cbn [po_files_loop negb orb].
      destruct (buffer_add st f res above below counts json_format);
        cbn [rbind]; [done|apply IH].
    + cbn [rbind ret]. apply IH.
Qed.

(** C9. In [initialize_arguments] a threshold of 0 cannot be told from an
    absent one: with [below = 0] the effective [below] is 100, and whenever
    the resulting [above] is 0 the check of [below < above] is skipped, so
    [above = 50] with [below = 0] succeeds with the range [50, 100] and
    [above = 0] with a negative [below] never raises. *)
Theorem zero_threshold_is_absent (offline hide_reserved : bool)
    (repo_path : string) :
  let reservations :=
    if negb offline && negb hide_reserved
    then from_external (get_reservation_list repo_path)
    else ret ∅ in
  (forall below,
     initialize_arguments (Some 0) below offline hide_reserved repo_path
     = initialize_arguments None below offline hide_reserved repo_path)
  /\ (forall above,
        initialize_arguments above (Some 0) offline hide_reserved repo_path
        = initialize_arguments above None offline hide_reserved repo_path)
  /\ (forall above a b res,
        initialize_arguments above (Some 0) offline hide_reserved repo_path
        = inr (a, b, res) -> b = 100)
  /\ (forall above below,
        or_default above 0 = 0 ->
        initialize_arguments above below offline hide_reserved repo_path
        = (let* res := reservations in ret (0, or_default below 100, res)))
  /\ initialize_arguments (Some 50) (Some 0) offline hide_reserved repo_path
     = (let* res := reservations in ret (50, 100, res))
  /\ (forall below,
        below < 0 ->
        initialize_arguments (Some 0) (Some below) offline hide_reserved repo_path
        = (let* res := reservations in ret (0, below, res))).
Proof.
  intros reservations. subst reservations.
  split; [done|]. split; [done|]. split; [|split; [|split]].
  - intros above a b res. unfold initialize_arguments.
    cbn [or_default truthy nonzero Z.eqb negb].
    destruct (nonzero (or_default above 0)); cbn [andb];
      [destruct (100 <? or_default above 0)|];
      cbn [rbind ret raise]; try done;
      destruct (if negb offline && negb hide_reserved then _ else _);
      cbn [rbind]; unfold ret; congruence.
  - intros above below Ha. unfold initialize_arguments. rewrite Ha.
    cbn [nonzero Z.eqb negb andb rbind ret]. reflexivity.
  - reflexivity.
  - intros below Hb. unfold initialize_arguments, or_default, truthy, nonzero.
    destruct (Z.eqb_spec below 0) as [?|_]; [lia|]. reflexivity.
Qed.

Lemma mean_percentages_value (data : list Z) (m : number) (x : spec_float) :
  data <> [] -> Forall percentage data ->
  mean data = inr m -> float_of_number m = inr x ->
  x = round_ratio false (Qnum (fraction_mean data)) (Qden (fraction_mean data)).
Proof.
  intros Hne Hall.
  pose proof (fraction_mean_percentages data Hne Hall) as [H0 H100].
  unfold mean. destruct data as [|p data]; [done|].
  set (q := fraction_mean (p :: data)) in *. clearbody q.
  destruct (Pos.eqb_spec (Qden q) 1) as [Hd|Hd].
  - intros [= <-]. cbn [float_of_number].
    rewrite Hd in *. rewrite float_of_int_percentage by (split; lia). congruence.
  - unfold int_true_divide. destruct (_ <=? _); [done|].
    cbn [rbind ret]. intros [= <-]. cbn [float_of_number].
    rewrite Z.abs_eq by done.
    destruct (Z.ltb_spec (Qnum q) 0) as [?|_]; [lia|]. unfold ret. congruence.
Qed.

Lemma mapM_Forall2 {A B} (f : A -> result B) (l : list A) (r : list B) :
  mapM f l = inr r -> Forall2 (fun x y => f x = inr y) l r.
Proof.
  revert r. induction l as [|a l IH]; intros r; cbn [mapM].
  - intros [= <-]. constructor.
  - intros H. apply rbind_inr in H as (y & Hy & H).
    apply rbind_inr in H as (ys & Hys & [= <-]). constructor; auto.
Qed.

Lemma filter_Permutation_bool {A} (p : A -> bool) (l l' : list A) :
  l ≡ₚ l' -> List.filter p l ≡ₚ List.filter p l'.
Proof.
  induction 1 as [|x l l' _ IH|x y l|l l' l'' _ IH1 _ IH2]; cbn [List.filter].
  - done.
  - destruct (p x); by rewrite IH.
  - destruct (p x), (p y); try done. apply Permutation_swap.
  - by etrans.
Qed.

(** What [render_text] and [render_json] give for a reported directory of
    files with percentages. *)
Lemma render_reported (res : gmap string string) (counts : bool)
    (above below : Z) (fuzzy : bool) (d : string) (po_files : list PoFileStats) :
  Forall valid_po po_files ->
  shown_files above below fuzzy po_files <> [] ->
  let r := report_of above below fuzzy (d, po_files) in
  let q := fraction_mean (report_stats r) in
  let x := round_ratio false (Qnum q) (Qden q) in
  (exists mn, mean (report_stats r) = inr mn /\ float_of_number mn = inr x)
  /\ (forall chunk,
        render_text res counts r = inr chunk ->
        exists lines,
          mapM (fun f => describe f res counts false) (report_files r)
          = inr (map VStr lines)
          /\ chunk = [PrintStr (header d (format_float_f 2 x));
                      PrintStr (str_join nl lines)])
  /\ (forall record,
        render_json res counts r = inr record ->
        exists files,
          mapM (fun f => describe f res counts true) (report_files r)
          = inr files
          /\ record = VDict [ ("name", VStr (d +:+ "/"));
                              ("pc_translated", VFloat (float_of_format_f 2 x));
                              ("files", VList files) ]).
Proof.
  intros Hall Hne r q x.
  destruct (processed_stats above below fuzzy po_files Hall Hne) as [Hs1 Hs2].
  destruct (mean_percentages _ Hs1 Hs2) as (m & x' & Hm & Hx).
  assert (x' = x) as -> by exact (mean_percentages_value _ m x' Hs1 Hs2 Hm Hx).
  split; [by exists m|]. split.
  - intros chunk. unfold render_text. fold r.
    cbn [report_stats report_name report_files r report_of fst snd] in *.
    rewrite Hm. cbn [rbind]. rewrite (format_f_float 2 m x Hx). cbn [rbind].
    intros H. apply rbind_inr in H as (descs & Hd & H).
    destruct (strings_of_lines _ _ _ _ 0%nat Hd) as (lines & Hl & ->).
    unfold join_values in H. rewrite Hl in H. cbn [rbind ret] in H.
    injection H as <-. by exists lines.
  - intros record. unfold render_json. fold r.
    cbn [report_stats report_name report_files r report_of fst snd] in *.
    rewrite Hm. cbn [rbind]. rewrite Hx. cbn [rbind].
    intros H. apply rbind_inr in H as (files & Hd & H).
    injection H as <-. by exists files.
Qed.

Lemma reports_valid (above below : Z) (fuzzy : bool)
    (m : gmap string (list PoFileStats)) (r : dir_report) :
  valid_repo m ->
  In r (reports above below fuzzy m) ->
  exists po_files,
    m !! report_name r = Some po_files
    /\ r = report_of above below fuzzy (report_name r, po_files)
    /\ Forall valid_po po_files
    /\ shown_files above below fuzzy po_files <> [].
Proof.
  intros Hm Hin. pose proof Hin as Hin'.
  apply reports_In in Hin as (po_files & Hd & Hr & _).
  exists po_files. split; [done|]. split; [done|]. split.
  - by apply (Hm (report_name r)).
  - unfold reports in Hin'. apply filter_In in Hin' as [_ Hrep].
    rewrite Hr in Hrep. unfold reportable in Hrep.
    cbn [report_of report_files snd] in Hrep. by apply nonempty_true.
Qed.


Lemma Forall2_impl_In {A B} (P Q : A -> B -> Prop) (l : list A) (r : list B) :
  Forall2 P l r ->
  (forall x y, In x l -> P x y -> Q x y) ->
  Forall2 Q l r.
Proof.
  induction 1 as [|x y l r Hxy _ IH]; intros HPQ; constructor.
  - apply HPQ; [by left|done].
  - apply IH. intros x' y' Hin. apply HPQ. by right.
Qed.

(** The chunks of text mode, one per reported directory. *)
Lemma text_chunks (res : gmap string string) (counts : bool) (a b : Z)
    (fuzzy : bool) (m : gmap string (list PoFileStats))
    (chunks : list (list printed)) :
  valid_repo m ->
  mapM (render_text res counts) (reports a b fuzzy m) = inr chunks ->
  Forall2
    (fun r chunk =>
       exists mn x lines,
         mean (report_stats r) = inr mn
         /\ float_of_number mn = inr x
         /\ mapM (fun f => describe f res counts false) (report_files r)
            = inr (map VStr lines)
         /\ chunk = [PrintStr (header (report_name r) (format_float_f 2 x));
                     PrintStr (str_join nl lines)])
    (reports a b fuzzy m) chunks.
Proof.
  intros Hm Hc. apply mapM_Forall2 in Hc.
  eapply Forall2_impl_In; [exact Hc|]. intros r chunk Hin Hr. cbn beta in Hr.
  destruct (reports_valid a b fuzzy m r Hm Hin) as (po_files & _ & Heq & Hv & Hne).
  pose proof (render_reported res counts a b fuzzy (report_name r) po_files
                Hv Hne) as H.
  cbn zeta in H. rewrite <- Heq in H. destruct H as ((mn & Hmn & Hx) & Htext & _).
  destruct (Htext chunk Hr) as (lines & Hl & ->).
  exists mn. eexists. by exists lines.
Qed.

(** The records of JSON mode, one per reported directory. *)
Lemma json_records (res : gmap string string) (counts : bool) (a b : Z)
    (fuzzy : bool) (m : gmap string (list PoFileStats)) (records : list value) :
  valid_repo m ->
  mapM (render_json res counts) (reports a b fuzzy m) = inr records ->
  Forall2
    (fun r record =>
       exists mn x files,
         mean (report_stats r) = inr mn
         /\ float_of_number mn = inr x
         /\ mapM (fun f => describe f res counts true) (report_files r)
            = inr files
         /\ record = VDict [ ("name", VStr (report_name r +:+ "/"));
                             ("pc_translated", VFloat (float_of_format_f 2 x));
                             ("files", VList files) ])
    (reports a b fuzzy m) records.
Proof.
  intros Hm Hc. apply mapM_Forall2 in Hc.
  eapply Forall2_impl_In; [exact Hc|]. intros r record Hin Hr. cbn beta in Hr.
  destruct (reports_valid a b fuzzy m r Hm Hin) as (po_files & _ & Heq & Hv & Hne).
  pose proof (render_reported res counts a b fuzzy (report_name r) po_files
                Hv Hne) as H.
  cbn zeta in H. rewrite <- Heq in H. destruct H as ((mn & Hmn & Hx) & _ & Hjson).
  destruct (Hjson record Hr) as (files & Hl & ->).
  exists mn. eexists. by exists files.
Qed.

(** C4. In both output modes a directory appears in the output (its header
    is printed, its record is appended to the JSON array) if and only if at
    least one of its files is shown under the active filters: the headers
    and the records are those of the reported directories, one each and in
    their order, and a directory is reported exactly when one of its files
    passes the fuzzy-only filter and the visibility rule. *)
Theorem directory_reported_iff_file_shown (path : string)
    (above below : option Z) (fuzzy offline hide_reserved counts : bool)
    (a b : Z) (res : gmap string string) (m : gmap string (list PoFileStats)) :
  initialize_arguments above below offline hide_reserved path = inr (a, b, res) ->
  get_po_files_from_repo path = inr m ->
  valid_repo m ->
  (forall d,
     In d (map report_name (reports a b fuzzy m))
     <-> exists po_files,
           m !! d = Some po_files
           /\ exists f, In f po_files /\ kept fuzzy f = true
                        /\ hidden a b f = false)
  /\ (exists chunks,
        exec_potodo path above below fuzzy offline hide_reserved counts false
        = (concat chunks, inr tt)
        /\ Forall2
             (fun d chunk =>
                exists done body,
                  chunk = [PrintStr (header d done); PrintStr body])
             (map report_name (reports a b fuzzy m)) chunks)
  /\ (exists records,
        exec_potodo path above below fuzzy offline hide_reserved counts true
        = ([PrintJson (VList records)], inr tt)
        /\ Forall2
             (fun d record =>
                exists pc files,
                  record = VDict [ ("name", VStr (d +:+ "/"));
                                   ("pc_translated", pc);
                                   ("files", VList files) ])
             (map report_name (reports a b fuzzy m)) records).
Proof.
  intros Hinit Hget Hm. split; [|split].
  - intros d. rewrite in_map_iff. split.
    + intros (r & <- & Hin). apply reports_In in Hin as (po_files & ? & _ & ?).
      by exists po_files.
    + intros (po_files & Hd & Hf).
      exists (report_of a b fuzzy (d, po_files)). split; [done|].
      apply reports_In. exists po_files. by cbn [report_of report_name fst].
  - destruct (exec_potodo_text path above below fuzzy offline hide_reserved
                counts a b res m Hinit Hget Hm) as (chunks & Hc & ->).
    exists chunks. split; [done|]. apply Forall2_fmap_l.
    eapply Forall2_impl; [exact (text_chunks _ _ _ _ _ _ _ Hm Hc)|].
    intros r chunk (mn & x & lines & _ & _ & _ & ->). eauto.
  - destruct (exec_potodo_json path above below fuzzy offline hide_reserved
                counts a b res m Hinit Hget Hm) as (records & Hc & ->).
    exists records. split; [done|]. apply Forall2_fmap_l.
    eapply Forall2_impl; [exact (json_records _ _ _ _ _ _ _ Hm Hc)|].
    intros r record (mn & x & files & _ & _ & _ & ->). eauto.
Qed.


(** C7, amended. In text mode each reported directory is printed as the
    header ["\n\n# <directory> (<mean, 2 decimals>% done)\n"], the name of
    the directory as it is, without a slash, followed by the lines of its
    shown files joined by newlines; the directories come in the sorted
    order of their names. *)
Theorem text_mode_output (path : string) (above below : option Z)
    (fuzzy offline hide_reserved counts : bool)
    (a b : Z) (res : gmap string string) (m : gmap string (list PoFileStats)) :
  initialize_arguments above below offline hide_reserved path = inr (a, b, res) ->
  get_po_files_from_repo path = inr m ->
  valid_repo m ->
  StronglySorted name_lt (map report_name (reports a b fuzzy m))
  /\ exists chunks,
       exec_potodo path above below fuzzy offline hide_reserved counts false
       = (concat chunks, inr tt)
       /\ Forall2
            (fun r chunk =>
               exists mn x lines,
                 mean (report_stats r) = inr mn
                 /\ float_of_number mn = inr x
                 /\ mapM (fun f => describe f res counts false) (report_files r)
                    = inr (map VStr lines)
                 /\ chunk
                    = [PrintStr (nl +:+ nl +:+ "# " +:+ report_name r +:+ " ("
                                 +:+ format_float_f 2 x +:+ "% done)" +:+ nl);
                       PrintStr (str_join nl lines)])
            (reports a b fuzzy m) chunks.
Proof.
  intros Hinit Hget Hm. split; [apply reports_sorted|].
  destruct (exec_potodo_text path above below fuzzy offline hide_reserved
              counts a b res m Hinit Hget Hm) as (chunks & Hc & ->).
  exists chunks. split; [done|]. exact (text_chunks _ _ _ _ _ _ _ Hm Hc).
Qed.

(** ** [statistics.mean] always gets data *)

Lemma rbind_not_StatisticsError {A B} (m : result A) (k : A -> result B) :
  ~ is_StatisticsError m ->
  (forall a, m = inr a -> ~ is_StatisticsError (k a)) ->
  ~ is_StatisticsError (rbind m k).
Proof.
  intros Hm Hk [msg H]. destruct m as [e|a]; cbn [rbind] in H.
  - apply Hm. exists msg. congruence.
  - apply (Hk a eq_refl). by exists msg.
Qed.

Lemma io_bind_not_StatisticsError {A B} (m : io A) (k : A -> io B) :
  ~ is_StatisticsError (snd m) ->
  (forall out a, m = (out, inr a) -> ~ is_StatisticsError (snd (k a))) ->
  ~ is_StatisticsError (snd (io_bind m k)).
Proof.
  intros Hm Hk [msg H]. destruct m as [out [e|a]]; cbn [io_bind snd] in *.
  - apply Hm. exists msg. congruence.
  - apply (Hk out a eq_refl). exists msg. by destruct (k a) as [out' r].
Qed.

Lemma inr_not_StatisticsError {A} (a : A) : ~ is_StatisticsError (inr a).
Proof. by intros [msg H]. Qed.

Lemma float_of_number_not_StatisticsError (m : number) :
    ~ is_StatisticsError (float_of_number m).
Proof.
  intros [msg H]. destruct m as [n|x]; cbn [float_of_number] in H; [|done].
  unfold float_of_int in H. by destruct (_ <=? _).
Qed.

Lemma mean_not_StatisticsError (data : list Z) :
  data <> [] -> ~ is_StatisticsError (mean data).
Proof.
  intros Hne [msg H]. unfold mean in H. destruct data as [|p data]; [done|].
  destruct (_ =? _)%positive; [done|].
  unfold int_true_divide in H. by destruct (_ <=? _).
Qed.

Lemma buffer_add_folder_stats (st : dir_state) (f : PoFileStats)
    (res : gmap string string) (above below : Z) (counts json_format : bool)
    (st' : dir_state) :
  buffer_add st f res above below counts json_format = inr st' ->
  folder_stats st' = folder_stats st ++ [percent_translated f].
Proof.
  unfold buffer_add. destruct (hidden above below f).
  - by intros [= <-].
  - intros H. apply rbind_inr in H as (desc & _ & [= <-]). done.
Qed.

Lemma buffer_add_not_StatisticsError (st : dir_state) (f : PoFileStats)
    (res : gmap string string) (above below : Z) (counts json_format : bool) :
  ~ is_StatisticsError (buffer_add st f res above below counts json_format).
Proof.
  unfold buffer_add. destruct (hidden above below f).
  - apply inr_not_StatisticsError.
  - apply rbind_not_StatisticsError; [apply describe_not_StatisticsError|].
    intros. apply inr_not_StatisticsError.
Qed.

Lemma po_files_loop_not_StatisticsError (po_files : list PoFileStats)
    (res : gmap string string) (above below : Z)
    (fuzzy counts json_format : bool) (st : dir_state) :
  ~ is_StatisticsError
      (po_files_loop po_files res above below fuzzy counts json_format st).
Proof.
  revert st. induction po_files as [|f po_files IH]; intros st;
    cbn [po_files_loop]; [apply inr_not_StatisticsError|].
  apply rbind_not_StatisticsError; [|intros; apply IH].
  destruct (_ || _);
    [apply buffer_add_not_StatisticsError|apply inr_not_StatisticsError].
Qed.

Lemma po_files_loop_covers (po_files : list PoFileStats)
    (res : gmap string string) (above below : Z)
    (fuzzy counts json_format : bool) (st st' : dir_state) :
  stats_cover_flags st ->
  po_files_loop po_files res above below fuzzy counts json_format st = inr st' ->
  stats_cover_flags st'.
Proof.
  revert st. induction po_files as [|f po_files IH]; intros st Hst;
    cbn [po_files_loop].
  - by intros [= <-].
  - intros H. apply rbind_inr in H as (st1 & H1 & H). apply (IH st1); [|done].
    destruct (_ || _); [|by injection H1 as <-].
    apply buffer_add_folder_stats in H1. intros _. rewrite H1.
    by destruct (folder_stats st).
Qed.

Lemma empty_state_covers : stats_cover_flags empty_state.
Proof. by intros H. Qed.

Lemma join_values_not_StatisticsError (sep : string) (l : list value) :
    ~ is_StatisticsError (join_values sep l).
Proof.
  unfold join_values. apply rbind_not_StatisticsError;
    [|intros; apply inr_not_StatisticsError].
  generalize 0%nat as i.
  induction l as [|v l IH]; intros i; cbn [strings_of];
    [apply inr_not_StatisticsError|].
  destruct v; try (by intros [? ?]).
  apply rbind_not_StatisticsError; [apply IH|]. intros. apply inr_not_StatisticsError.
Qed.

Lemma print_dir_stats_not_StatisticsError (directory_name : string)
    (buffer : list value) (folder_stats : list Z) (printed_list : list bool) :
  (True_in printed_list = true -> folder_stats <> []) ->
  ~ is_StatisticsError
      (snd (print_dir_stats directory_name buffer folder_stats printed_list)).
Proof.
  intros Hcover. unfold print_dir_stats.
  destruct (True_in printed_list); [|apply inr_not_StatisticsError].
  apply io_bind_not_StatisticsError.
  - cbn [io_lift snd]. apply rbind_not_StatisticsError.
    + by apply mean_not_StatisticsError, Hcover.
    + intros m _. unfold format_f. apply rbind_not_StatisticsError;
        [apply float_of_number_not_StatisticsError|].
      intros. apply inr_not_StatisticsError.
  - intros _ done _. apply io_bind_not_StatisticsError;
      [apply inr_not_StatisticsError|].
    intros _ _ _. apply io_bind_not_StatisticsError.
    + apply join_values_not_StatisticsError.
    + intros. apply inr_not_StatisticsError.
Qed.

Lemma add_dir_stats_not_StatisticsError (directory_name : string)
    (buffer : list value) (folder_stats : list Z) (printed_list : list bool)
    (all_stats : list value) :
  (True_in printed_list = true -> folder_stats <> []) ->
  ~ is_StatisticsError
      (add_dir_stats directory_name buffer folder_stats printed_list all_stats).
Proof.
  intros Hcover. unfold add_dir_stats, any. fold (True_in printed_list).
  destruct (True_in printed_list); [|apply inr_not_StatisticsError].
  apply rbind_not_StatisticsError.
  - by apply mean_not_StatisticsError, Hcover.
  - intros m _. apply rbind_not_StatisticsError;
      [apply float_of_number_not_StatisticsError|].
    intros. apply inr_not_StatisticsError.
Qed.

Lemma directories_loop_not_StatisticsError
    (items : list (string * list PoFileStats)) (res : gmap string string)
    (above below : Z) (fuzzy counts json_format : bool)
    (dir_stats : list value) :
  ~ is_StatisticsError
      (snd (directories_loop items res above below fuzzy counts json_format
                             dir_stats)).
Proof.
  revert dir_stats. induction items as [|[d po_files] items IH];
    intros dir_stats; cbn [directories_loop];
    [apply inr_not_StatisticsError|].
  apply io_bind_not_StatisticsError;
    [apply po_files_loop_not_StatisticsError|].
  intros out st [= _ Hst].
  pose proof (po_files_loop_covers _ _ _ _ _ _ _ _ _ empty_state_covers Hst)
    as Hcover.
  apply io_bind_not_StatisticsError; [|intros; apply IH].
  destruct json_format.
  - by apply add_dir_stats_not_StatisticsError.
  - apply io_bind_not_StatisticsError;
      [by apply print_dir_stats_not_StatisticsError|].
    intros. apply inr_not_StatisticsError.
Qed.

Lemma initialize_arguments_not_StatisticsError (above below : option Z)
    (offline hide_reserved : bool) (repo_path : string) :
  ~ is_StatisticsError
      (initialize_arguments above below offline hide_reserved repo_path).
Proof.
  unfold initialize_arguments. apply rbind_not_StatisticsError.
  - destruct (_ && _); [destruct (_ <? _)|]; by intros [? ?].
  - intros _ _. apply rbind_not_StatisticsError;
      [|intros; apply inr_not_StatisticsError].
    destruct (_ && _); [|by intros [? ?]].
    destruct (get_reservation_list repo_path); by intros [? ?].
Qed.

(** C10. Whenever [print_dir_stats] or [add_dir_stats] computes
    [statistics.mean(folder_stats)], [folder_stats] is not empty: every call
    of [buffer_add] that returns, and so every one that appends [True] to
    the display-decision list, appends to [folder_stats]; after the inner
    loop a [True] in the display-decision list comes with statistics; the
    mean is computed only under the guard, without which both functions do
    nothing; so no run raises the [StatisticsError] of an empty mean. *)
Theorem mean_data_never_empty :
  (forall st f res above below counts json_format st',
     buffer_add st f res above below counts json_format = inr st' ->
     folder_stats st' = folder_stats st ++ [percent_translated f])
  /\ (forall po_files res above below fuzzy counts json_format st',
        po_files_loop po_files res above below fuzzy counts json_format
                      empty_state = inr st' ->
        True_in (printed_list st') = true ->
        folder_stats st' <> []
        /\ ~ is_StatisticsError (mean (folder_stats st')))
  /\ (forall directory_name buffer folder_stats printed_list,
        True_in printed_list = false ->
        print_dir_stats directory_name buffer folder_stats printed_list
        = ([], inr tt))
  /\ (forall directory_name buffer folder_stats printed_list all_stats,
        any printed_list = false ->
        add_dir_stats directory_name buffer folder_stats printed_list all_stats
        = inr all_stats)
  /\ (forall path above below fuzzy offline hide_reserved counts json_format,
        ~ is_StatisticsError
            (snd (exec_potodo path above below fuzzy offline hide_reserved
                              counts json_format))).
Proof.
  split; [|split; [|split; [|split]]].
  - intros st f res above below counts json_format st'.
    apply buffer_add_folder_stats.
  - intros po_files res above below fuzzy counts json_format st' Hloop Htrue.
    pose proof (po_files_loop_covers _ _ _ _ _ _ _ _ _ empty_state_covers Hloop
                  Htrue) as Hne.
    split; [done|]. by apply mean_not_StatisticsError.
  - intros directory_name buffer folder_stats printed_list H.
    unfold print_dir_stats. by rewrite H.
  - intros directory_name buffer folder_stats printed_list all_stats H.
    unfold add_dir_stats. by rewrite H.
  - intros repo_path above below fuzzy offline hide_reserved counts json_format.
    unfold exec_potodo. apply io_bind_not_StatisticsError.
    + apply initialize_arguments_not_StatisticsError.
    + intros _ [[a b] res] _. apply io_bind_not_StatisticsError.
      * cbn [io_lift snd]. unfold from_external.
        destruct (get_po_files_from_repo repo_path); by intros [? ?].
      * intros _ m _. apply io_bind_not_StatisticsError.
        -- apply directories_loop_not_StatisticsError.
        -- intros. destruct json_format; apply inr_not_StatisticsError.
Qed.

(** * Further properties of the engine *)

(** ** The inner loop on any files *)

Lemma mapM_length {A B} (f : A -> result B) (l : list A) (r : list B) :
  mapM f l = inr r -> length r = length l.
Proof.
  intros H. apply mapM_Forall2 in H. symmetry. eapply Forall2_length, H.
Qed.

Lemma mapM_sublist {A B} (f : A -> result B) (l1 l2 : list A)
    (r1 r2 : list B) :
  sublist l1 l2 -> mapM f l1 = inr r1 -> mapM f l2 = inr r2 -> sublist r1 r2.
Proof.
  intros Hsub. revert r1 r2.
  induction Hsub as [|x l1 l2 _ IH|x l1 l2 _ IH]; intros r1 r2; cbn [mapM].
  - intros [= <-] [= <-]. constructor.
  - intros H1 H2. apply rbind_inr in H1 as (y & Hy & H1).
    apply rbind_inr in H1 as (ys1 & Hys1 & [= <-]).
    rewrite Hy in H2. cbn [rbind] in H2.
    apply rbind_inr in H2 as (ys2 & Hys2 & [= <-]).
    constructor. by apply IH.
  - intros H1 H2. apply rbind_inr in H2 as (y & Hy & H2).
    apply rbind_inr in H2 as (ys2 & Hys2 & [= <-]).
    constructor. by apply IH.
Qed.

Lemma filter_sublist_bool {A} (p q : A -> bool) (l : list A) :
  (forall x, In x l -> p x = true -> q x = true) ->
  sublist (List.filter p l) (List.filter q l).
Proof.
  induction l as [|x l IH]; intros Hpq; cbn [List.filter]; [constructor|].
  assert (sublist (List.filter p l) (List.filter q l)) as Hl.
  { apply IH. intros y Hy. apply Hpq. by right. }
  destruct (p x) eqn:Hp.
  - rewrite (Hpq x (or_introl eq_refl) Hp). by constructor.
  - destruct (q x); [by constructor|done].
Qed.

Lemma filter_filter_bool {A} (p q : A -> bool) (l : list A) :
  List.filter p (List.filter q l) = List.filter (fun x => q x && p x) l.
Proof.
  induction l as [|x l IH]; cbn [List.filter]; [done|].
  destruct (q x); cbn [List.filter andb]; [destruct (p x)|]; by rewrite IH.
Qed.

(** What a run of the inner loop that returns has done. *)
Lemma po_files_loop_inr (po_files : list PoFileStats)
    (res : gmap string string) (above below : Z)
    (fuzzy counts json_format : bool) (st st' : dir_state) :
  po_files_loop po_files res above below fuzzy counts json_format st = inr st' ->
  exists descs,
    mapM (fun f => describe f res counts json_format)
         (List.filter (fun f => negb (hidden above below f))
                      (List.filter (kept fuzzy) po_files)) = inr descs
    /\ buffer st' = buffer st ++ descs
    /\ folder_stats st'
       = folder_stats st
         ++ map percent_translated (List.filter (kept fuzzy) po_files)
    /\ printed_list st'
       = printed_list st ++ flags above below fuzzy json_format po_files.
Proof.
  revert st. induction po_files as [|f po_files IH]; intros st.
  - intros [= <-]. exists []. unfold flags.
    destruct json_format; cbn [List.filter map mapM]; by rewrite !app_nil_r.
  - unfold flags in *. cbn [po_files_loop List.filter]. fold (kept fuzzy f).
    intros H. apply rbind_inr in H as (st1 & H1 & H).
    destruct (IH st1 H) as (descs & Hd & Hb & Hs & Hp).
    destruct (kept fuzzy f) eqn:Hk; cbn [List.filter map].
    + destruct (hidden above below f) eqn:Hh; cbn [negb List.filter map].
      * rewrite buffer_add_hidden in H1 by done. injection H1 as <-.
        cbn [buffer folder_stats printed_list] in *.
        exists descs. rewrite Hb, Hs, Hp. split; [done|].
        destruct json_format; cbn [negb map]; by rewrite <- ?app_assoc.
      * rewrite buffer_add_shown in H1 by done.
        apply rbind_inr in H1 as (v & Hv & [= <-]).
        cbn [buffer folder_stats printed_list] in *.
        exists (v :: descs). cbn [mapM]. rewrite Hv, Hd. cbn [rbind ret].
        rewrite Hb, Hs, Hp. split; [done|].
        destruct json_format; cbn [negb map]; by rewrite <- ?app_assoc.
    + injection H1 as <-. by exists descs.
Qed.

Lemma length_filter_true_map {A} (p : A -> bool) (l : list A) :
  length (List.filter (fun b : bool => b) (map p l)) = length (List.filter p l).
Proof.
  induction l as [|x l IH]; cbn [map List.filter]; [done|].
  destruct (p x); cbn [length]; by rewrite IH.
Qed.

(** X1. The three lists stay in step. After the inner loop on any files,
    the buffer holds as many descriptors as the display-decision list holds
    [True]; the display-decision list is never longer than the statistics
    list, and as long in text mode; in JSON mode it holds nothing but
    [True]. *)
Theorem lists_in_step (po_files : list PoFileStats) (res : gmap string string)
    (above below : Z) (fuzzy counts json_format : bool) (st' : dir_state) :
  po_files_loop po_files res above below fuzzy counts json_format empty_state
  = inr st' ->
  length (buffer st')
  = length (List.filter (fun b : bool => b) (printed_list st'))
  /\ (length (printed_list st') <= length (folder_stats st'))%nat
  /\ (json_format = false ->
      length (printed_list st') = length (folder_stats st'))
  /\ (json_format = true -> Forall (fun b => b = true) (printed_list st')).
Proof.
  intros H. apply po_files_loop_inr in H as (descs & Hd & Hb & Hs & Hp).
  cbn [empty_state buffer folder_stats printed_list app] in *.
  apply mapM_length in Hd. rewrite Hb, Hs, Hp, Hd. unfold flags.
  set (kept_files := List.filter (kept fuzzy) po_files).
  destruct json_format.
  - split; [|split; [|split; [done|]]].
    + generalize (List.filter (fun f => negb (hidden above below f)) kept_files).
      intros l. induction l as [|x l IH]; cbn [map List.filter length]; congruence.
    + rewrite !length_map.
      generalize kept_files. intros l.
      induction l as [|x l IH]; cbn [List.filter length]; [done|].
      destruct (negb _); cbn [length]; lia.
    + intros _. apply Forall_map, List.Forall_forall. done.
  - split; [|split; [|split; [|done]]].
    + by rewrite length_filter_true_map.
    + by rewrite !length_map.
    + intros _. by rewrite !length_map.
Qed.

(** X2. The statistics list does not depend on the thresholds. After the
    inner loop on any files it holds the percentage of every file that
    passed the fuzzy-only filter, shown or not, in the order of the files,
    whatever [above], [below], [counts] and the output mode are. *)
Theorem folder_stats_all_kept (po_files : list PoFileStats)
    (res : gmap string string) (above below : Z)
    (fuzzy counts json_format : bool) (st' : dir_state) :
  po_files_loop po_files res above below fuzzy counts json_format empty_state
  = inr st' ->
  folder_stats st'
  = map percent_translated
        (List.filter (fun f => negb fuzzy || nonempty (fuzzy_entries f))
                     po_files).
Proof.
  intros H. apply po_files_loop_inr in H as (_ & _ & _ & Hs & _).
  by rewrite Hs.
Qed.

(** X3. Narrowing the band never adds a file. If [above <= above'] and
    [below' <= below], the buffer the inner loop builds under
    [above', below'] is a sublist of the one it builds under
    [above, below], the other arguments being the same. *)
Theorem narrower_band_shows_fewer (po_files : list PoFileStats)
    (res : gmap string string) (above below above' below' : Z)
    (fuzzy counts json_format : bool) (wide narrow : dir_state) :
  above <= above' ->
  below' <= below ->
  po_files_loop po_files res above below fuzzy counts json_format empty_state
  = inr wide ->
  po_files_loop po_files res above' below' fuzzy counts json_format empty_state
  = inr narrow ->
  sublist (buffer narrow) (buffer wide).
Proof.
  intros Ha Hb Hwide Hnarrow.
  apply po_files_loop_inr in Hwide as (dw & Hdw & -> & _).
  apply po_files_loop_inr in Hnarrow as (dn & Hdn & -> & _).
  cbn [empty_state buffer app].
  eapply mapM_sublist; [|exact Hdn|exact Hdw].
  apply filter_sublist_bool. intros f _ Hf.
  apply negb_true_iff in Hf. apply negb_true_iff.
  apply hidden_false_iff in Hf as [Hne [Hlo Hhi]].
  apply hidden_false_iff. split; [done|]. split; lia.
Qed.

(** X4. The fuzzy-only option never adds a file. The buffer the inner loop
    builds with [fuzzy] set is a sublist of the one it builds without, the
    other arguments being the same. *)
Theorem fuzzy_only_shows_fewer (po_files : list PoFileStats)
    (res : gmap string string) (above below : Z)
    (counts json_format : bool) (every only : dir_state) :
  po_files_loop po_files res above below false counts json_format empty_state
  = inr every ->
  po_files_loop po_files res above below true counts json_format empty_state
  = inr only ->
  sublist (buffer only) (buffer every).
Proof.
  intros Hevery Honly.
  apply po_files_loop_inr in Hevery as (de & Hde & -> & _).
  apply po_files_loop_inr in Honly as (dn & Hdn & -> & _).
  cbn [empty_state buffer app].
  eapply mapM_sublist; [|exact Hdn|exact Hde].
  rewrite !filter_filter_bool. apply filter_sublist_bool.
  intros f _ [_ Hf]%andb_true_iff. unfold kept. by rewrite Hf.
Qed.

(** ** The exceptions of a run *)

Lemma raises_only_inr {A} (P : exn -> Prop) (a : A) : raises_only P (inr a).
Proof. by intros e. Qed.

Lemma raises_only_rbind {A B} (P : exn -> Prop) (m : result A)
    (k : A -> result B) :
  raises_only P m ->
  (forall a, m = inr a -> raises_only P (k a)) ->
  raises_only P (rbind m k).
Proof.
  intros Hm Hk e H. destruct m as [e'|a]; cbn [rbind] in H.
  - apply Hm. congruence.
  - by apply (Hk a eq_refl).
Qed.

Lemma raises_only_io_bind {A B} (P : exn -> Prop) (m : io A) (k : A -> io B) :
  raises_only P (snd m) ->
  (forall out a, m = (out, inr a) -> raises_only P (snd (k a))) ->
  raises_only P (snd (io_bind m k)).
Proof.
  intros Hm Hk e H. destruct m as [out [e'|a]]; cbn [io_bind snd] in *.
  - apply Hm. congruence.
  - apply (Hk out a eq_refl). by destruct (k a) as [out' r].
Qed.

Lemma raises_only_impl {A} (P Q : exn -> Prop) (r : result A) :
  (forall e, P e -> Q e) -> raises_only P r -> raises_only Q r.
Proof. intros HPQ Hr e He. by apply HPQ, Hr. Qed.

Lemma float_of_number_overflow (m : number) :
  raises_only is_OverflowError (float_of_number m).
Proof.
  intros e H. destruct m as [n|x]; cbn [float_of_number] in H; [|done].
  unfold float_of_int in H. destruct (_ <=? _); [|done].
  injection H as <-. by eexists.
Qed.

Lemma format_f_overflow (prec : nat) (m : number) :
  raises_only is_OverflowError (format_f prec m).
Proof.
  apply raises_only_rbind; [apply float_of_number_overflow|].
  intros. apply raises_only_inr.
Qed.

Lemma mean_overflow (data : list Z) :
  data <> [] -> raises_only is_OverflowError (mean data).
Proof.
  intros Hne e H. unfold mean in H. destruct data as [|p data]; [done|].
  destruct (_ =? _)%positive; [done|].
  unfold int_true_divide in H. destruct (_ <=? _); [|done].
  injection H as <-. by eexists.
Qed.

Lemma describe_overflow (f : PoFileStats) (res : gmap string string)
    (counts json_format : bool) :
  raises_only is_OverflowError (describe f res counts json_format).
Proof.
  destruct json_format; [rewrite describe_json; apply raises_only_inr|].
  unfold describe. apply raises_only_rbind; [|intros; apply raises_only_inr].
  destruct counts; [apply raises_only_inr|].
  apply raises_only_rbind; [|intros; apply raises_only_inr].
  unfold format_wf. apply raises_only_rbind; [apply format_f_overflow|].
  intros. apply raises_only_inr.
Qed.

Lemma po_files_loop_overflow (po_files : list PoFileStats)
    (res : gmap string string) (above below : Z)
    (fuzzy counts json_format : bool) (st : dir_state) :
  raises_only is_OverflowError
    (po_files_loop po_files res above below fuzzy counts json_format st).
Proof.
  revert st. induction po_files as [|f po_files IH]; intros st;
    cbn [po_files_loop]; [apply raises_only_inr|].
  apply raises_only_rbind; [|intros; apply IH].
  destruct (_ || _); [|apply raises_only_inr].
  unfold buffer_add. destruct (hidden above below f); [apply raises_only_inr|].
  apply raises_only_rbind; [apply describe_overflow|].
  intros. apply raises_only_inr.
Qed.

Lemma join_values_strings (sep : string) (l : list value) :
  Forall is_str l -> exists s, join_values sep l = inr s.
Proof.
  intros Hl. unfold join_values.
  assert (forall i, exists ss, strings_of i l = inr ss) as Hss.
  { induction Hl as [|v l [s ->] _ IH]; intros i; [by exists []|].
    destruct (IH (S i)) as [ss Hss]. cbn [strings_of]. rewrite Hss. by eexists. }
  destruct (Hss 0%nat) as [ss ->]. by eexists.
Qed.

(** In text mode the buffer of the inner loop holds strings. *)
Lemma po_files_loop_strings (po_files : list PoFileStats)
    (res : gmap string string) (above below : Z) (fuzzy counts : bool)
    (st' : dir_state) :
  po_files_loop po_files res above below fuzzy counts false empty_state
  = inr st' ->
  Forall is_str (buffer st').
Proof.
  intros H. apply po_files_loop_inr in H as (descs & Hd & -> & _).
  cbn [empty_state buffer app].
  destruct (strings_of_lines _ _ _ _ 0%nat Hd) as (lines & _ & ->).
  apply Forall_map, List.Forall_forall. intros s _. by exists s.
Qed.

Lemma print_dir_stats_overflow (directory_name : string)
    (buffer : list value) (folder_stats : list Z) (printed_list : list bool) :
  (True_in printed_list = true -> folder_stats <> []) ->
  Forall is_str buffer ->
  raises_only is_OverflowError
    (snd (print_dir_stats directory_name buffer folder_stats printed_list)).
Proof.
  intros Hcover Hstr. unfold print_dir_stats.
  destruct (True_in printed_list); [|apply raises_only_inr].
  apply raises_only_io_bind.
  - cbn [io_lift snd]. apply raises_only_rbind.
    + by apply mean_overflow, Hcover.
    + intros. apply format_f_overflow.
  - intros _ done _. apply raises_only_io_bind; [apply raises_only_inr|].
    intros _ _ _. apply raises_only_io_bind; [|intros; apply raises_only_inr].
    cbn [io_lift snd]. destruct (join_values_strings nl buffer Hstr) as [s ->].
    apply raises_only_inr.
Qed.

Lemma add_dir_stats_overflow (directory_name : string)
    (buffer : list value) (folder_stats : list Z) (printed_list : list bool)
    (all_stats : list value) :
  (True_in printed_list = true -> folder_stats <> []) ->
  raises_only is_OverflowError
    (add_dir_stats directory_name buffer folder_stats printed_list all_stats).
Proof.
  intros Hcover. unfold add_dir_stats, any. fold (True_in printed_list).
  destruct (True_in printed_list); [|apply raises_only_inr].
  apply raises_only_rbind; [by apply mean_overflow, Hcover|].
  intros m _. apply raises_only_rbind; [apply float_of_number_overflow|].
  intros. apply raises_only_inr.
Qed.

Lemma directories_loop_overflow (items : list (string * list PoFileStats))
    (res : gmap string string) (above below : Z)
    (fuzzy counts json_format : bool) (dir_stats : list value) :
  raises_only is_OverflowError
    (snd (directories_loop items res above below fuzzy counts json_format
                           dir_stats)).
Proof.
  revert dir_stats. induction items as [|[d po_files] items IH];
    intros dir_stats; cbn [directories_loop]; [apply raises_only_inr|].
  apply raises_only_io_bind; [apply po_files_loop_overflow|].
  intros out st [= _ Hst].
  pose proof (po_files_loop_covers _ _ _ _ _ _ _ _ _ empty_state_covers Hst)
    as Hcover.
  apply raises_only_io_bind; [|intros; apply IH].
  destruct json_format.
  - by apply add_dir_stats_overflow.
  - apply raises_only_io_bind; [|intros; apply raises_only_inr].
    apply print_dir_stats_overflow; [done|].
    by apply po_files_loop_strings in Hst.
Qed.

(** X5. A run ends normally or with one of three exceptions: the
    [ValueError] of the range check, the exception of a collaborator, or an
    [OverflowError] of a float conversion; never with a [TypeError] of the
    join of the buffer nor with a [StatisticsError], whatever the input. *)
Theorem exec_potodo_exceptions (repo_path : string) (above below : option Z)
    (fuzzy offline hide_reserved counts json_format : bool) (e : exn) :
  snd (exec_potodo repo_path above below fuzzy offline hide_reserved counts
                   json_format) = inl e ->
  e = ValueError "Below must be inferior to above"
  \/ (exists msg, e = ExternalError msg)
  \/ (exists msg, e = OverflowError msg).
Proof.
  revert e. change (raises_only run_exn
    (snd (exec_potodo repo_path above below fuzzy offline hide_reserved counts
                      json_format))).
  unfold exec_potodo. apply raises_only_io_bind.
  - cbn [io_lift snd]. unfold initialize_arguments.
    apply raises_only_rbind.
    + destruct (_ && _); [destruct (_ <? _)|]; try apply raises_only_inr.
      intros e [= <-]. by left.
    + intros _ _. apply raises_only_rbind; [|intros; apply raises_only_inr].
      destruct (_ && _); [|apply raises_only_inr].
      destruct (get_reservation_list repo_path) as [msg|res];
        [|apply raises_only_inr].
      intros e [= <-]. right. left. by exists msg.
  - intros _ [[a b] res] _. apply raises_only_io_bind.
    + cbn [io_lift snd].
      destruct (get_po_files_from_repo repo_path) as [msg|m];
        [|apply raises_only_inr].
      intros e [= <-]. right. left. by exists msg.
    + intros _ m _. apply raises_only_io_bind.
      * eapply raises_only_impl; [|apply directories_loop_overflow].
        intros e He. right. by right.
      * intros. destruct json_format; apply raises_only_inr.
Qed.

(** ** What JSON mode prints *)

Lemma directories_loop_json_silent (items : list (string * list PoFileStats))
    (res : gmap string string) (above below : Z) (fuzzy counts : bool)
    (dir_stats : list value) :
  fst (directories_loop items res above below fuzzy counts true dir_stats) = [].
Proof.
  revert dir_stats. induction items as [|[d po_files] items IH];
    intros dir_stats; cbn [directories_loop]; [done|].
  destruct (po_files_loop _ _ _ _ _ _ _ _) as [e|st]; [done|].
  cbn [io_lift io_bind].
  destruct (add_dir_stats _ _ _ _ _) as [e|ds]; [done|].
  cbn [io_bind]. specialize (IH ds).
  destruct (directories_loop _ _ _ _ _ _ _ _) as [out r].
  cbn [fst] in IH. by rewrite IH.
Qed.

(** X6. JSON mode prints all or nothing: a run in JSON mode that raises has
    printed nothing, and one that returns has printed exactly one document,
    a list. *)
Theorem json_mode_all_or_nothing (repo_path : string) (above below : option Z)
    (fuzzy offline hide_reserved counts : bool) :
  (exists e,
     exec_potodo repo_path above below fuzzy offline hide_reserved counts true
     = ([], inl e))
  \/ (exists records,
        exec_potodo repo_path above below fuzzy offline hide_reserved counts true
        = ([PrintJson (VList records)], inr tt)).
Proof.
  unfold exec_potodo.
  destruct (initialize_arguments _ _ _ _ _) as [e|[[a b] res]];
    [left; by exists e|].
  cbn [io_lift io_bind].
  destruct (get_po_files_from_repo repo_path) as [msg|m];
    [left; by eexists|].
  cbn [from_external ret io_bind].
  pose proof (directories_loop_json_silent (sorted_items m) res a b fuzzy
                counts []) as Hsilent.
  destruct (directories_loop _ _ _ _ _ _ _ _) as [out [e|records]];
    cbn [fst] in Hsilent; subst out.
  - left. by exists e.
  - right. by exists records.
Qed.

(** ** Nothing to report *)

Lemma po_files_loop_unshown (po_files : list PoFileStats)
    (res : gmap string string) (above below : Z)
    (fuzzy counts json_format : bool) (st : dir_state) :
  Forall (unshown above below fuzzy) po_files ->
  exists st',
    po_files_loop po_files res above below fuzzy counts json_format st = inr st'
    /\ buffer st' = buffer st
    /\ (True_in (printed_list st) = false -> True_in (printed_list st') = false).
Proof.
  intros Hall. revert st.
  induction Hall as [|f po_files Hf _ IH]; intros st; cbn [po_files_loop].
  - by exists st.
  - fold (kept fuzzy f). destruct (kept fuzzy f) eqn:Hk.
    + destruct Hf as [Hf|Hf]; [congruence|].
      rewrite buffer_add_hidden by done. cbn [rbind].
      edestruct IH as (st' & -> & Hb & Hp). exists st'. split; [done|].
      cbn [buffer printed_list] in *. split; [done|]. intros Hst. apply Hp.
      destruct json_format; [done|].
      unfold True_in in *. rewrite existsb_app, Hst. done.
    + cbn [rbind ret]. apply IH.
Qed.

Lemma directories_loop_unshown (items : list (string * list PoFileStats))
    (res : gmap string string) (above below : Z)
    (fuzzy counts json_format : bool) (dir_stats : list value) :
  Forall (fun item => Forall (unshown above below fuzzy) (snd item)) items ->
  directories_loop items res above below fuzzy counts json_format dir_stats
  = ([], inr dir_stats).
Proof.
  induction 1 as [|[d po_files] items Hd _ IH]; cbn [directories_loop]; [done|].
  cbn [snd] in Hd.
  assert (Forall (unshown above below fuzzy) (sorted po_file_lt po_files)) as Hs
    by (by rewrite sorted_Permutation).
  destruct (po_files_loop_unshown _ res above below fuzzy counts json_format
              empty_state Hs) as (st & -> & _ & Hp).
  specialize (Hp eq_refl). cbn [io_lift io_bind].
  unfold add_dir_stats, print_dir_stats, any. fold (True_in (printed_list st)).
  rewrite Hp. destruct json_format; unfold io_lift, io_ret, ret;
    cbn [io_bind app]; by rewrite IH.
Qed.

(** X7. When no file of the repository is shown (all are skipped by the
    fuzzy-only filter or hidden by the visibility rule, as in an empty
    repository or one fully translated), text mode prints nothing and JSON
    mode prints the empty list; the percentages need not be valid. *)
Theorem nothing_shown_output (repo_path : string) (above below : option Z)
    (fuzzy offline hide_reserved counts : bool) (a b : Z)
    (res : gmap string string) (m : gmap string (list PoFileStats)) :
  initialize_arguments above below offline hide_reserved repo_path
  = inr (a, b, res) ->
  get_po_files_from_repo repo_path = inr m ->
  map_Forall (fun _ po_files => Forall (unshown a b fuzzy) po_files) m ->
  exec_potodo repo_path above below fuzzy offline hide_reserved counts false
  = ([], inr tt)
  /\ exec_potodo repo_path above below fuzzy offline hide_reserved counts true
     = ([PrintJson (VList [])], inr tt).
Proof.
  intros Hinit Hget Hm.
  assert (Forall (fun item => Forall (unshown a b fuzzy) (snd item))
                 (sorted_items m)) as Hitems.
  { rewrite sorted_items_Permutation. apply map_Forall_to_list in Hm.
    eapply Forall_impl; [exact Hm|]. by intros [d po_files]. }
  unfold exec_potodo. rewrite Hinit, Hget.
  cbn [io_lift io_bind from_external ret].
  by rewrite !(directories_loop_unshown _ _ _ _ _ _ _ _ Hitems).
Qed.

(** ** The thresholds *)

(** X8. The range [initialize_arguments] returns: [above] and [below] are
    the given ones with 0 and 100 for an absent or zero one; [below] is
    never 0; a non-zero [above] is at most [below]; and the returned
    thresholds, given back as arguments, are returned unchanged. *)
Theorem initialize_arguments_range (above below : option Z)
    (offline hide_reserved : bool) (repo_path : string) (a b : Z)
    (res : gmap string string) :
  initialize_arguments above below offline hide_reserved repo_path
  = inr (a, b, res) ->
  a = or_default above 0
  /\ b = or_default below 100
  /\ b <> 0
  /\ (a <> 0 -> a <= b)
  /\ initialize_arguments (Some a) (Some b) offline hide_reserved repo_path
     = inr (a, b, res).
Proof.
  unfold initialize_arguments. intros H.
  apply rbind_inr in H as ([] & Hcheck & H).
  apply rbind_inr in H as (res' & Hres & [= <- <- <-]).
  pose proof (or_default_below_nonzero below) as Hb.
  set (a := or_default above 0) in *. set (b := or_default below 100) in *.
  assert (b <> 0) as Hb0
    by (unfold nonzero in Hb; by apply negb_true_iff, Z.eqb_neq in Hb).
  assert (a <> 0 -> a <= b) as Hab.
  { intros Ha. destruct (nonzero a) eqn:Hnz.
    - rewrite Hb in Hcheck. cbn [andb] in Hcheck.
      destruct (Z.ltb_spec b a); [done|lia].
    - unfold nonzero in Hnz. apply negb_false_iff, Z.eqb_eq in Hnz. done. }
  split; [done|]. split; [done|]. split; [done|]. split; [done|].
  assert (or_default (Some a) 0 = a) as ->.
  { unfold or_default, truthy, nonzero. by destruct (Z.eqb_spec a 0). }
  assert (or_default (Some b) 100 = b) as ->.
  { unfold or_default, truthy, nonzero. by destruct (Z.eqb_spec b 0). }
  by rewrite Hcheck, Hres.
Qed.

(** X9. [initialize_arguments] raises the [ValueError] of the range exactly
    when the effective [above] is not 0 and the effective [below] is less;
    the check comes before the reservations are fetched, so this holds
    whatever the collaborator does. *)
Theorem initialize_arguments_ValueError (above below : option Z)
    (offline hide_reserved : bool) (repo_path : string) :
  (exists msg,
     initialize_arguments above below offline hide_reserved repo_path
     = inl (ValueError msg))
  <-> or_default above 0 <> 0 /\ or_default below 100 < or_default above 0.
Proof.
  unfold initialize_arguments.
  rewrite or_default_below_nonzero, andb_true_r. unfold nonzero.
  destruct (Z.eqb_spec (or_default above 0) 0) as [Ha|Ha]; cbn [negb].
  - cbn [rbind ret]. split; [|by intros [? _]].
    intros [msg H]. destruct (_ && _); [|done].
    by destruct (get_reservation_list repo_path).
  - destruct (Z.ltb_spec (or_default below 100) (or_default above 0))
      as [Hlt|Hge].
    + split; [done|]. intros _. by eexists.
    + cbn [rbind ret]. split; [|intros [_ ?]; lia].
      intros [msg H]. destruct (_ && _); [|done].
      by destruct (get_reservation_list repo_path).
Qed.

Lemma range_check_passes (above below : Z) :
  nonzero below = true ->
  above = 0 \/ above <= below ->
  (if nonzero above && nonzero below then
     if below <? above
     then raise (ValueError "Below must be inferior to above")
     else ret tt
   else ret tt) = inr tt.
Proof.
  intros -> Hr. rewrite andb_true_r. unfold nonzero.
  destruct (Z.eqb_spec above 0) as [|Hne]; [done|]. cbn [negb].
  by destruct (Z.ltb_spec below above); [lia|].
Qed.

(** X10. Offline, or with the reservations hidden, [initialize_arguments]
    does not fetch them: it returns the empty mapping and cannot fail
    because of the collaborator; otherwise it returns what the collaborator
    returns and fails as the collaborator does, once the range is valid
    (the effective [above] is 0 or at most the effective [below]).  Each
    half is stated in both directions: what a result says about the
    collaborator, and what the result is, given the range and the
    collaborator's answer. *)
Theorem initialize_arguments_reservations (above below : option Z)
    (offline hide_reserved : bool) (repo_path : string) :
  (offline || hide_reserved = true ->
   (forall a b res,
      initialize_arguments above below offline hide_reserved repo_path
      = inr (a, b, res) -> res = ∅)
   /\ (forall msg,
         initialize_arguments above below offline hide_reserved repo_path
         <> inl (ExternalError msg))
   /\ (or_default above 0 = 0 \/ or_default above 0 <= or_default below 100 ->
       initialize_arguments above below offline hide_reserved repo_path
       = inr (or_default above 0, or_default below 100, ∅)))
  /\ (offline || hide_reserved = false ->
      (forall a b res,
         initialize_arguments above below offline hide_reserved repo_path
         = inr (a, b, res) -> get_reservation_list repo_path = inr res)
      /\ (forall msg,
            initialize_arguments above below offline hide_reserved repo_path
            = inl (ExternalError msg) -> get_reservation_list repo_path = inl msg)
      /\ (or_default above 0 = 0 \/ or_default above 0 <= or_default below 100 ->
          (forall res,
             get_reservation_list repo_path = inr res ->
             initialize_arguments above below offline hide_reserved repo_path
             = inr (or_default above 0, or_default below 100, res))
          /\ (forall msg,
                get_reservation_list repo_path = inl msg ->
                initialize_arguments above below offline hide_reserved repo_path
                = inl (ExternalError msg)))).
Proof.
  unfold initialize_arguments. split; intros Hoff.
  - assert (negb offline && negb hide_reserved = false) as ->
      by (by destruct offline, hide_reserved).
    split; [|split].
    + intros a b res H. apply rbind_inr in H as (_ & _ & H).
      cbn [rbind ret] in H. by injection H.
    + intros msg H.
      destruct (_ && _); [destruct (_ <? _)|]; cbn [rbind ret raise] in H; done.
    + intros Hr.
      by rewrite (range_check_passes _ _ (or_default_below_nonzero below) Hr).
  - assert (negb offline && negb hide_reserved = true) as ->
      by (by destruct offline, hide_reserved).
    split; [|split].
    + intros a b res H. apply rbind_inr in H as (_ & _ & H).
      destruct (get_reservation_list repo_path);
        unfold from_external, rbind, ret, raise in H; congruence.
    + intros msg H.
      destruct (_ && _); [destruct (_ <? _)|];
        destruct (get_reservation_list repo_path);
        unfold from_external, rbind, ret, raise in H; congruence.
    + intros Hr.
      rewrite (range_check_passes _ _ (or_default_below_nonzero below) Hr).
      cbn [rbind]. split.
      * by intros res ->.
      * by intros msg ->.
Qed.

(** X11. On a repository whose files carry percentages between 0 and 100,
    a run whose arguments are accepted and whose collaborators answer ends
    normally, in either mode. *)
Theorem exec_potodo_returns (repo_path : string) (above below : option Z)
    (fuzzy offline hide_reserved counts json_format : bool) (a b : Z)
    (res : gmap string string) (m : gmap string (list PoFileStats)) :
  initialize_arguments above below offline hide_reserved repo_path
  = inr (a, b, res) ->
  get_po_files_from_repo repo_path = inr m ->
  valid_repo m ->
  snd (exec_potodo repo_path above below fuzzy offline hide_reserved counts
                   json_format) = inr tt.
Proof.
  intros Hinit Hget Hm. destruct json_format.
  - by destruct (exec_potodo_json repo_path above below fuzzy offline
                   hide_reserved counts a b res m Hinit Hget Hm)
      as (records & _ & ->).
  - by destruct (exec_potodo_text repo_path above below fuzzy offline
                   hide_reserved counts a b res m Hinit Hget Hm)
      as (chunks & _ & ->).
Qed.

(** ** The JSON document *)

Lemma Forall2_Forall_In_r {A B} (P : A -> B -> Prop) (Q : B -> Prop)
    (l : list A) (k : list B) :
  Forall2 P l k -> (forall x y, In x l -> P x y -> Q y) -> Forall Q k.
Proof.
  induction 1 as [|x y l k Hxy _ IH]; intros HQ; constructor.
  - by apply (HQ x); [left|].
  - apply IH. intros x' y' Hin. apply HQ. by right.
Qed.

(** X12. On a repository of files with valid percentages, the document of
    JSON mode is a list of records with the keys [name], [pc_translated],
    [files] in this order; [files] is never empty, and each of its records
    has the seven keys in their order and a [pc_translated] that is an
    [int] within the thresholds and different from 100. *)
Theorem json_document_shape (repo_path : string) (above below : option Z)
    (fuzzy offline hide_reserved counts : bool) (a b : Z)
    (res : gmap string string) (m : gmap string (list PoFileStats)) :
  initialize_arguments above below offline hide_reserved repo_path
  = inr (a, b, res) ->
  get_po_files_from_repo repo_path = inr m ->
  valid_repo m ->
  exists records,
    exec_potodo repo_path above below fuzzy offline hide_reserved counts true
    = ([PrintJson (VList records)], inr tt)
    /\ Forall
         (fun record =>
            dict_keys record = ["name"; "pc_translated"; "files"]
            /\ exists files,
                 dict_get "files" record = Some (VList files)
                 /\ files <> []
                 /\ Forall
                      (fun file =>
                         dict_keys file
                         = ["name"; "path"; "entries"; "fuzzies"; "translated";
                            "pc_translated"; "reserved_by"]
                         /\ exists p,
                              dict_get "pc_translated" file = Some (VInt p)
                              /\ a <= p <= b /\ p <> 100)
                      files)
         records.
Proof.
  intros Hinit Hget Hm.
  destruct (exec_potodo_json repo_path above below fuzzy offline hide_reserved
              counts a b res m Hinit Hget Hm) as (records & Hc & ->).
  exists records. split; [done|].
  eapply Forall2_Forall_In_r; [exact (json_records _ _ _ _ _ _ _ Hm Hc)|].
  intros r record Hin (mn & x & files & _ & _ & Hfiles & ->).
  split; [done|]. exists files. split; [done|].
  destruct (reports_valid a b fuzzy m r Hm Hin) as (po_files & _ & Hr & _ & Hne).
  assert (report_files r = shown_files a b fuzzy po_files) as Hrf
    by (by rewrite Hr).
  split.
  - intros ->. apply mapM_length in Hfiles. rewrite Hrf in Hfiles.
    by destruct (shown_files a b fuzzy po_files).
  - apply mapM_Forall2 in Hfiles.
    eapply Forall2_Forall_In_r; [exact Hfiles|].
    intros f file Hf Hfile. cbn beta in Hfile.
    rewrite describe_json in Hfile. injection Hfile as <-.
    split; [done|]. exists (percent_translated f). split; [done|].
    rewrite Hrf in Hf. unfold shown_files in Hf.
    apply filter_In in Hf as [_ Hh]. apply negb_true_iff in Hh.
    apply hidden_false_iff in Hh as [? [? ?]]. done.
Qed.

(** ** The name of a file in JSON mode *)

Lemma rev_app_app (s1 s2 acc : string) :
  String.rev_app (s1 +:+ s2) acc = String.rev_app s2 (String.rev_app s1 acc).
Proof.
  revert acc. induction s1 as [|c s1 IH]; intros acc; [done|].
  cbn [String.append String.rev_app]. apply IH.
Qed.

Lemma rev_rev_app (s acc : string) :
  String.rev (String.rev_app s acc) = String.rev_app acc s.
Proof.
  revert acc. induction s as [|c s IH]; intros acc; [done|].
  cbn [String.rev_app]. by rewrite IH.
Qed.

Lemma string_rev_involutive (s : string) : String.rev (String.rev s) = s.
Proof. unfold String.rev at 2. by rewrite rev_rev_app. Qed.

(** [strip('.po')] gives the stem of [<stem>.po] when the stem neither
    begins nor ends with one of ['.'], ['p'], ['o']. *)
Lemma strip_po_stem (stem rest body : string) (c0 c1 : ascii) :
  stem = String c0 rest ->
  stem = body +:+ String c1 "" ->
  po_char c0 = false ->
  po_char c1 = false ->
  strip ".po" (stem +:+ ".po") = stem.
Proof.
  intros H0 H1 Hc0 Hc1. unfold po_char in Hc0, Hc1. unfold strip, rstrip.
  assert (lstrip ".po" (stem +:+ ".po") = stem +:+ ".po") as ->.
  { rewrite H0.
    change (String c0 rest +:+ ".po") with (String c0 (rest +:+ ".po")).
    cbn [lstrip]. by rewrite Hc0. }
  unfold String.rev at 2. rewrite rev_app_app.
  change (String.rev_app ".po" (String.rev_app stem ""))
    with (String "o" (String "p" (String "." (String.rev stem)))).
  change (lstrip ".po" (String "o" (String "p" (String "." (String.rev stem)))))
    with (lstrip ".po" (String.rev stem)).
  rewrite H1 at 1.
  unfold String.rev at 2. rewrite rev_app_app.
  cbn [String.rev_app lstrip]. rewrite Hc1.
  change (String c1 (String.rev_app body ""))
    with (String.rev_app (String c1 "") (String.rev_app body "")).
  rewrite <- rev_app_app, <- H1. apply string_rev_involutive.
Qed.

(** X13. The name of a file record is the directory and the stem of the
    file name when the file name is [<stem>.po] and the stem neither begins
    nor ends with one of the characters ['.'], ['p'], ['o']. *)
Theorem json_name_of_stem (f : PoFileStats) (res : gmap string string)
    (counts : bool) (stem rest body : string) (c0 c1 : ascii) :
  filename f = stem +:+ ".po" ->
  stem = String c0 rest ->
  stem = body +:+ String c1 "" ->
  mem_char c0 ".po" = false ->
  mem_char c1 ".po" = false ->
  exists record,
    describe f res counts true = inr record
    /\ dict_get "name" record = Some (VStr (directory f +:+ "/" +:+ stem)).
Proof.
  intros Hf H0 H1 Hc0 Hc1. rewrite describe_json. eexists. split; [done|].
  cbn [dict_get items_get String.eqb]. rewrite Ascii.eqb_refl.
  cbn [String.eqb]. by rewrite Hf, (strip_po_stem stem rest body c0 c1).
Qed.

(** ** The line of a file in text mode *)



(** ** The reservations *)

(** X15. A reservation is found under the lowercased [filename_dir] only:
    one recorded under a key that is no lowercased string changes no
    descriptor. *)
Theorem reservation_key_is_lowercase (f : PoFileStats)
    (res : gmap string string) (counts json_format : bool) (key who : string) :
  (forall s, str_lower s <> key) ->
  describe f (<[key := who]> res) counts json_format
  = describe f res counts json_format.
Proof.
  intros Hkey. unfold describe.
  rewrite lookup_insert_ne by (intros Heq; by apply (Hkey (filename_dir f))).
  reflexivity.
Qed.

(** ** The order of the files *)

Lemma sum_Z_Permutation (l l' : list Z) : l ≡ₚ l' -> sum_Z l = sum_Z l'.
Proof.
  unfold sum_Z.
  induction 1 as [|x l l' _ IH|x y l|l l' l'' _ IH1 _ IH2]; cbn [foldr];
    lia.
Qed.

Lemma mean_Permutation (l l' : list Z) : l ≡ₚ l' -> mean l = mean l'.
Proof.
  intros Hp. unfold mean, fraction_mean.
  rewrite (sum_Z_Permutation l l' Hp), (Permutation_length Hp).
  destruct l as [|x l], l' as [|x' l']; try done.
  - by apply Permutation_nil_l in Hp.
  - symmetry in Hp. by apply Permutation_nil_l in Hp.
Qed.

(** X16. The mean of a directory does not depend on the order in which its
    files are processed: on two orderings of the same files the inner loop
    leaves statistics lists that are permutations of each other, with the
    same [statistics.mean]. *)
Theorem mean_independent_of_order (po_files po_files' : list PoFileStats)
    (res : gmap string string) (above below : Z)
    (fuzzy counts json_format : bool) (st st' : dir_state) :
  po_files ≡ₚ po_files' ->
  po_files_loop po_files res above below fuzzy counts json_format empty_state
  = inr st ->
  po_files_loop po_files' res above below fuzzy counts json_format empty_state
  = inr st' ->
  folder_stats st ≡ₚ folder_stats st'
  /\ mean (folder_stats st) = mean (folder_stats st').
Proof.
  intros Hp H H'.
  apply po_files_loop_inr in H as (_ & _ & _ & Hs & _).
  apply po_files_loop_inr in H' as (_ & _ & _ & Hs' & _).
  assert (folder_stats st ≡ₚ folder_stats st') as Hperm.
  { rewrite Hs, Hs'. cbn [empty_state folder_stats app].
    by apply Permutation_map, filter_Permutation_bool. }
  split; [done|]. by apply mean_Permutation.
Qed.

End Potodo.

(** * The claims on the sample repository *)

Lemma sample_repo_valid : valid_repo Sample.repo.
Proof.
  unfold valid_repo, Sample.repo.
  repeat (apply map_Forall_insert_2;
          [repeat constructor; unfold valid_po, percentage; simpl; lia|]).
  apply map_Forall_empty.
Qed.

Lemma sample_valid_po (f : PoFileStats) :
  (0 <=? percent_translated f) && (percent_translated f <=? 100) = true ->
  valid_po f.
Proof.
  intros [H0 H100]%andb_true_iff. apply Z.leb_le in H0, H100. by split.
Defined.

(** C1 at [b.po], 50% translated, under the default thresholds. *)
Lemma buffer_add_shown_iff_witness :
  0 <= 100
  /\ valid_po Sample.b_po
  /\ exists st',
       buffer_add Sample.lower empty_state Sample.b_po ∅ 0 100 false false
       = inr st'
       /\ folder_stats st' = [50]
       /\ printed_list st' = [true].
Proof.
  assert (0 <= 100) as Hr by (apply Z.leb_le; reflexivity).
  pose proof (sample_valid_po Sample.b_po eq_refl) as Hv.
  split; [exact Hr|]. split; [exact Hv|].
  destruct (buffer_add_shown_iff Sample.lower empty_state Sample.b_po ∅ 0 100
              false false Hr Hv) as (st' & Hadd & Hstats & Hiff & _).
  exists st'. split; [exact Hadd|]. split; [exact Hstats|].
  destruct (proj2 Hiff) as (desc & _ & Hflag); [|exact Hflag].
  repeat split; apply Z.leb_le || apply Z.ltb_lt; reflexivity.
Defined.

(** C3 as stated fails: with [above] absent and [below = -5] the effective
    [above], 0, exceeds the effective [below], and yet the run ends normally
    and, in JSON mode, prints the empty document. *)
Lemma invalid_range_not_always_rejected :
  or_default (Some (-5)) 100 < or_default None 0
  /\ exec_potodo Sample.get_reservation_list Sample.get_po_files_from_repo
                 Sample.po_file_lt Sample.lower
                 "." None (Some (-5)) false true false false true
     = ([PrintJson (VList [])], inr tt).
Proof. split; [reflexivity|]. vm_compute. reflexivity. Qed.

(** C3, amended, at [above = 50], [below = 20]. *)
Lemma nonzero_above_over_below_fails_witness :
  or_default (Some 50) 0 <> 0
  /\ or_default (Some 20) 100 < or_default (Some 50) 0
  /\ exec_potodo Sample.get_reservation_list Sample.get_po_files_from_repo
                 Sample.po_file_lt Sample.lower
                 "." (Some 50) (Some 20) false true false false false
     = ([], inl (ValueError "Below must be inferior to above")).
Proof.
  assert (or_default (Some 50) 0 <> 0) as Hnz by discriminate.
  assert (or_default (Some 20) 100 < or_default (Some 50) 0) as Hlt
    by reflexivity.
  split; [exact Hnz|]. split; [exact Hlt|].
  exact (nonzero_above_over_below_fails
           Sample.get_reservation_list Sample.get_po_files_from_repo
           Sample.po_file_lt Sample.lower
           "." (Some 50) (Some 20) false true false false false Hnz Hlt).
Defined.

(** C6 at the directory of the example: [half.po] has no fuzzy entry and
    drops out, [most.po] has one and stays. *)
Lemma fuzzy_only_skips_files_without_fuzzy_witness :
  fuzzy_entries Sample.half_po = []
  /\ po_files_loop Sample.lower [Sample.half_po; Sample.most_po]
                   ∅ 0 100 true false false empty_state
     = po_files_loop Sample.lower [Sample.most_po]
                     ∅ 0 100 true false false empty_state.
Proof.
  assert (fuzzy_entries Sample.half_po = []) as Hf by reflexivity.
  split; [exact Hf|].
  exact (proj1 (fuzzy_only_skips_files_without_fuzzy Sample.lower ∅ 0 100
                  false false)
               [] Sample.half_po [Sample.most_po] empty_state Hf).
Defined.

(** The example of the specification: with [fuzzy_only], of a file at 50%
    without fuzzy entry and one at 40% with one, only the second counts, and
    the mean of the directory is 40.00. *)
Example fuzzy_only_mean :
  exec_potodo Sample.get_reservation_list
              (fun _ => inr {[ "fuzzy" := [Sample.half_po; Sample.most_po] ]})
              Sample.po_file_lt Sample.lower
              "." None None true true false false false
  = ([PrintStr (nl +:+ nl +:+ "# fuzzy (40.00% done)" +:+ nl);
      PrintStr "- most.po                          4 /  10 ( 40.0% translated), 1 fuzzy"],
     inr tt).
Proof. vm_compute. reflexivity. Qed.

(** C7 as stated fails on the example of the specification, a directory
    [folder] with files at 100, 50 (2 fuzzy) and 30 per cent: the header
    that is printed names the directory without a slash. *)
Lemma text_header_has_no_slash :
  exec_potodo Sample.get_reservation_list Sample.get_folder_repo
              Sample.po_file_lt Sample.lower
              "." None None false true false false false
  = ([PrintStr (nl +:+ nl +:+ "# folder (60.00% done)" +:+ nl);
      PrintStr ("- b.po                             5 /  10 ( 50.0% translated), 2 fuzzy"
                +:+ nl +:+
                "- c.po                             3 /  10 ( 30.0% translated)")],
     inr tt)
  /\ nl +:+ nl +:+ "# folder (60.00% done)" +:+ nl
     <> nl +:+ nl +:+ "# folder/ (60.00% done)" +:+ nl.
Proof. split; [vm_compute; reflexivity|discriminate]. Qed.

(** C8 at [library/pickle.po], reserved by Bob, in JSON mode: the record has
    the seven keys in their order and the reserver found under the
    lowercased [filename_dir], but its name is ["library/ickle"], where the
    file name without its [.po] extension gives ["library/pickle"]:
    [strip('.po')] takes every leading and trailing ['.'], ['p'] and ['o']. *)
Theorem json_name_strips_characters :
  buffer_add Sample.lower empty_state Sample.pickle_po Sample.reservations
             0 100 false true
  = inr {| buffer :=
             [VDict [ ("name", VStr "library/ickle");
                      ("path", VStr "fr/library/pickle.po");
                      ("entries", VInt 4);
                      ("fuzzies", VInt 0);
                      ("translated", VInt 1);
                      ("pc_translated", VInt 25);
                      ("reserved_by", VStr "Bob") ]];
           folder_stats := [25];
           printed_list := [true] |}.
Proof. vm_compute. reflexivity. Qed.

(** C9 at an absent [above] and [below = -5], offline. *)
Lemma zero_threshold_is_absent_witness :
  or_default None 0 = 0
  /\ initialize_arguments Sample.get_reservation_list None (Some (-5))
                          true false "."
     = inr (0, -5, ∅).
Proof.
  assert (or_default None 0 = 0) as H0 by reflexivity.
  split; [exact H0|].
  exact (proj1 (proj2 (proj2 (proj2
           (zero_threshold_is_absent Sample.get_reservation_list
              true false "."))))
         None (Some (-5)) H0).
Defined.

(** C10 at the directory of the example. *)
Lemma mean_data_never_empty_witness :
  exists st',
    po_files_loop Sample.lower [Sample.c_po; Sample.a_po; Sample.b_po]
                  ∅ 0 100 false false false empty_state = inr st'
    /\ True_in (printed_list st') = true
    /\ folder_stats st' <> [].
Proof.
  destruct (po_files_loop Sample.lower [Sample.c_po; Sample.a_po; Sample.b_po]
              ∅ 0 100 false false false empty_state) as [e|st'] eqn:Hloop;
    [vm_compute in Hloop; discriminate|].
  exists st'. split; [reflexivity|].
  assert (True_in (printed_list st') = true) as Htrue
    by (vm_compute in Hloop; injection Hloop as <-; reflexivity).
  split; [exact Htrue|].
  exact (proj1 (proj1 (proj2
           (mean_data_never_empty Sample.get_reservation_list
              Sample.get_po_files_from_repo Sample.po_file_lt Sample.lower))
           [Sample.c_po; Sample.a_po; Sample.b_po]
           ∅ 0 100 false false false st' Hloop Htrue)).
Defined.

Lemma sample_initialize_arguments :
  initialize_arguments Sample.get_reservation_list None None false false "."
  = inr (0, 100, Sample.reservations).
Proof. reflexivity. Defined.

Lemma sample_get_po_files :
  Sample.get_po_files_from_repo "." = inr Sample.repo.
Proof. reflexivity. Defined.

Lemma sample_folder :
  Sample.repo !! "folder" = Some [Sample.c_po; Sample.a_po; Sample.b_po].
Proof. vm_compute. reflexivity. Defined.

Lemma sample_folder_shows :
  exists f, In f [Sample.c_po; Sample.a_po; Sample.b_po]
            /\ kept false f = true /\ hidden 0 100 f = false.
Proof. exists Sample.b_po. split; [right; right; by left|]. by split. Defined.







(** C4 on the sample repository: [folder] shows a file and is reported. *)
Lemma directory_reported_iff_file_shown_witness :
  initialize_arguments Sample.get_reservation_list None None false false "."
  = inr (0, 100, Sample.reservations)
  /\ Sample.get_po_files_from_repo "." = inr Sample.repo
  /\ valid_repo Sample.repo
  /\ In "folder"
        (map report_name (reports Sample.po_file_lt 0 100 false Sample.repo)).
Proof.
  split; [exact sample_initialize_arguments|].
  split; [exact sample_get_po_files|].
  split; [exact sample_repo_valid|].
  apply (proj1 (directory_reported_iff_file_shown
                  Sample.get_reservation_list Sample.get_po_files_from_repo
                  Sample.po_file_lt Sample.lower
                  "." None None false false false false
                  0 100 Sample.reservations Sample.repo
                  sample_initialize_arguments sample_get_po_files
                  sample_repo_valid) "folder").
  exists [Sample.c_po; Sample.a_po; Sample.b_po].
  split; [exact sample_folder|exact sample_folder_shows].
Defined.


(** C7, amended, on the sample repository. *)
Lemma text_mode_output_witness :
  initialize_arguments Sample.get_reservation_list None None false false "."
  = inr (0, 100, Sample.reservations)
  /\ Sample.get_po_files_from_repo "." = inr Sample.repo
  /\ valid_repo Sample.repo
  /\ StronglySorted name_lt
       (map report_name (reports Sample.po_file_lt 0 100 false Sample.repo))
  /\ exists chunks,
       exec_potodo Sample.get_reservation_list Sample.get_po_files_from_repo
                   Sample.po_file_lt Sample.lower
                   "." None None false false false false false
       = (concat chunks, inr tt)
       /\ length chunks
          = length (reports Sample.po_file_lt 0 100 false Sample.repo).
Proof.
  split; [exact sample_initialize_arguments|].
  split; [exact sample_get_po_files|].
  split; [exact sample_repo_valid|].
  destruct (text_mode_output
              Sample.get_reservation_list Sample.get_po_files_from_repo
              Sample.po_file_lt Sample.lower
              "." None None false false false false
              0 100 Sample.reservations Sample.repo
              sample_initialize_arguments sample_get_po_files sample_repo_valid)
    as (Hsorted & chunks & Htext & Hchunks).
  split; [exact Hsorted|]. exists chunks. split; [exact Htext|].
  symmetry. eapply Forall2_length. eassumption.
Defined.

(** * Further properties, across collaborators *)

Lemma exec_potodo_without_reservations
    (get_reservation_list : string -> string + gmap string string)
    (get_po_files_from_repo : string -> string + gmap string (list PoFileStats))
    (po_file_lt : PoFileStats -> PoFileStats -> bool)
    (str_lower : string -> string)
    (repo_path : string) (above below : option Z)
    (fuzzy offline hide_reserved counts json_format : bool) :
  offline || hide_reserved = true ->
  exec_potodo get_reservation_list get_po_files_from_repo po_file_lt str_lower
              repo_path above below fuzzy offline hide_reserved counts
              json_format
  = exec_potodo (fun _ => inr ∅) get_po_files_from_repo po_file_lt str_lower
                repo_path above below fuzzy false false counts json_format.
Proof.
  intros Hoff. unfold exec_potodo, initialize_arguments.
  assert (negb offline && negb hide_reserved = false) as ->
    by (by destruct offline, hide_reserved).
  reflexivity.
Qed.

(** X17. Offline, or with the reservations hidden, a run is the run with a
    collaborator that knows of no reservation: it does not depend on
    [get_reservation_list], and the two options have the same effect. *)
Theorem offline_is_no_reservations
    (get_reservation_list : string -> string + gmap string string)
    (get_po_files_from_repo : string -> string + gmap string (list PoFileStats))
    (po_file_lt : PoFileStats -> PoFileStats -> bool)
    (str_lower : string -> string)
    (repo_path : string) (above below : option Z)
    (fuzzy offline hide_reserved counts json_format : bool) :
  offline || hide_reserved = true ->
  exec_potodo get_reservation_list get_po_files_from_repo po_file_lt str_lower
              repo_path above below fuzzy offline hide_reserved counts
              json_format
  = exec_potodo (fun _ => inr ∅) get_po_files_from_repo po_file_lt str_lower
                repo_path above below fuzzy false false counts json_format.
Proof. apply exec_potodo_without_reservations. Qed.

(** X18. [main] hands the parsed options to [exec_potodo], [--no-reserved]
    as [hide_reserved] and the working directory for an absent [--path]:
    two command lines that differ only in which of [--offline] and
    [--no-reserved] they give, or in giving the working directory as the
    path, run alike, whatever the reservation collaborator is. *)
Theorem main_offline_or_no_reserved
    (get_reservation_list get_reservation_list' :
       string -> string + gmap string string)
    (get_po_files_from_repo : string -> string + gmap string (list PoFileStats))
    (po_file_lt : PoFileStats -> PoFileStats -> bool)
    (str_lower : string -> string)
    (cwd : string) (args args' : Namespace) :
  args_offline args || args_no_reserved args = true ->
  args_offline args' || args_no_reserved args' = true ->
  default cwd (args_path args) = default cwd (args_path args') ->
  args_above args = args_above args' ->
  args_below args = args_below args' ->
  args_fuzzy args = args_fuzzy args' ->
  args_counts args = args_counts args' ->
  args_json args = args_json args' ->
  main get_reservation_list get_po_files_from_repo po_file_lt str_lower
       cwd args
  = main get_reservation_list' get_po_files_from_repo po_file_lt str_lower
         cwd args'.
Proof.
  intros Hoff Hoff' Hpath Ha Hb Hf Hc Hj. unfold main.
  rewrite (exec_potodo_without_reservations get_reservation_list
             _ _ _ _ _ _ _ _ _ _ _ Hoff).
  rewrite (exec_potodo_without_reservations get_reservation_list'
             _ _ _ _ _ _ _ _ _ _ _ Hoff').
  change (match args_path args with Some p => p | None => cwd end)
    with (default cwd (args_path args)).
  change (match args_path args' with Some p => p | None => cwd end)
    with (default cwd (args_path args')).
  by rewrite Hpath, Ha, Hb, Hf, Hc, Hj.
Qed.

(** * The further properties on the sample repository *)

Lemma sample_loop (above below : Z) (fuzzy counts json_format : bool) :
  exists st',
    po_files_loop Sample.lower [Sample.c_po; Sample.a_po; Sample.b_po]
                  ∅ above below fuzzy counts json_format empty_state = inr st'.
Proof.
  destruct (po_files_loop_valid Sample.lower
              [Sample.c_po; Sample.a_po; Sample.b_po] ∅ above below
              fuzzy counts json_format empty_state) as (descs & _ & ->).
  - repeat constructor; by apply sample_valid_po.
  - by eexists.
Defined.

(** X1 on the directory of the example, in text mode. *)
Lemma lists_in_step_witness :
  exists st',
    po_files_loop Sample.lower [Sample.c_po; Sample.a_po; Sample.b_po]
                  ∅ 0 100 false false false empty_state = inr st'
    /\ length (buffer st')
       = length (List.filter (fun b : bool => b) (printed_list st'))
    /\ length (printed_list st') = length (folder_stats st').
Proof.
  destruct (sample_loop 0 100 false false false) as [st' Hloop].
  exists st'. split; [exact Hloop|].
  destruct (lists_in_step Sample.lower _ _ _ _ _ _ _ _ Hloop)
    as (Hbuf & _ & Htext & _).
  split; [exact Hbuf|exact (Htext eq_refl)].
Defined.

(** X2 on the directory of the example: the file at 100 is counted. *)
Lemma folder_stats_all_kept_witness :
  exists st',
    po_files_loop Sample.lower [Sample.c_po; Sample.a_po; Sample.b_po]
                  ∅ 40 60 false false true empty_state = inr st'
    /\ folder_stats st' = [30; 100; 50].
Proof.
  destruct (sample_loop 40 60 false false true) as [st' Hloop].
  exists st'. split; [exact Hloop|].
  exact (folder_stats_all_kept Sample.lower _ _ _ _ _ _ _ _ Hloop).
Defined.

(** X3 on the directory of the example, bands [0, 100] and [40, 100]. *)
Lemma narrower_band_shows_fewer_witness :
  0 <= 40
  /\ 100 <= 100
  /\ exists wide narrow,
       po_files_loop Sample.lower [Sample.c_po; Sample.a_po; Sample.b_po]
                     ∅ 0 100 false false false empty_state = inr wide
       /\ po_files_loop Sample.lower [Sample.c_po; Sample.a_po; Sample.b_po]
                        ∅ 40 100 false false false empty_state = inr narrow
       /\ sublist (buffer narrow) (buffer wide).
Proof.
  assert (0 <= 40) as Ha by (apply Z.leb_le; reflexivity).
  assert (100 <= 100) as Hb by (apply Z.leb_le; reflexivity).
  split; [exact Ha|]. split; [exact Hb|].
  destruct (sample_loop 0 100 false false false) as [wide Hwide].
  destruct (sample_loop 40 100 false false false) as [narrow Hnarrow].
  exists wide, narrow. split; [exact Hwide|]. split; [exact Hnarrow|].
  exact (narrower_band_shows_fewer Sample.lower _ _ _ _ _ _ _ _ _ _ _
           Ha Hb Hwide Hnarrow).
Defined.

(** X4 on the directory of the example. *)
Lemma fuzzy_only_shows_fewer_witness :
  exists every only,
    po_files_loop Sample.lower [Sample.c_po; Sample.a_po; Sample.b_po]
                  ∅ 0 100 false false false empty_state = inr every
    /\ po_files_loop Sample.lower [Sample.c_po; Sample.a_po; Sample.b_po]
                     ∅ 0 100 true false false empty_state = inr only
    /\ sublist (buffer only) (buffer every).
Proof.
  destruct (sample_loop 0 100 false false false) as [every Hevery].
  destruct (sample_loop 0 100 true false false) as [only Honly].
  exists every, only. split; [exact Hevery|]. split; [exact Honly|].
  exact (fuzzy_only_shows_fewer Sample.lower _ _ _ _ _ _ _ _ Hevery Honly).
Defined.

(** X5 at a run that fails: [above = 50], [below = 20]. *)
Lemma exec_potodo_exceptions_witness :
  snd (exec_potodo Sample.get_reservation_list Sample.get_po_files_from_repo
                   Sample.po_file_lt Sample.lower
                   "." (Some 50) (Some 20) false true false false false)
  = inl (ValueError "Below must be inferior to above")
  /\ (ValueError "Below must be inferior to above"
      = ValueError "Below must be inferior to above"
      \/ (exists msg,
            ValueError "Below must be inferior to above" = ExternalError msg)
      \/ (exists msg,
            ValueError "Below must be inferior to above" = OverflowError msg)).
Proof.
  assert (snd (exec_potodo Sample.get_reservation_list
                 Sample.get_po_files_from_repo Sample.po_file_lt Sample.lower
                 "." (Some 50) (Some 20) false true false false false)
          = inl (ValueError "Below must be inferior to above")) as H
    by reflexivity.
  split; [exact H|].
  exact (exec_potodo_exceptions Sample.get_reservation_list
           Sample.get_po_files_from_repo Sample.po_file_lt Sample.lower
           "." (Some 50) (Some 20) false true false false false _ H).
Defined.

(** X7 on a repository whose only file is fully translated. *)
Lemma nothing_shown_output_witness :
  initialize_arguments Sample.get_reservation_list None None true false "."
  = inr (0, 100, ∅)
  /\ map_Forall (fun _ po_files => Forall (unshown 0 100 false) po_files)
                ({[ "done" := [Sample.done_po] ]}
                   : gmap string (list PoFileStats))
  /\ exec_potodo Sample.get_reservation_list
                 (fun _ => inr {[ "done" := [Sample.done_po] ]})
                 Sample.po_file_lt Sample.lower
                 "." None None false true false false false
     = ([], inr tt)
  /\ exec_potodo Sample.get_reservation_list
                 (fun _ => inr {[ "done" := [Sample.done_po] ]})
                 Sample.po_file_lt Sample.lower
                 "." None None false true false false true
     = ([PrintJson (VList [])], inr tt).
Proof.
  assert (initialize_arguments Sample.get_reservation_list None None true false
            "." = inr (0, 100, ∅)) as Hinit by reflexivity.
  assert (map_Forall (fun _ po_files => Forall (unshown 0 100 false) po_files)
            ({[ "done" := [Sample.done_po] ]}
               : gmap string (list PoFileStats))) as Hm.
  { apply map_Forall_singleton. constructor; [right; reflexivity|constructor]. }
  split; [exact Hinit|]. split; [exact Hm|].
  exact (nothing_shown_output Sample.get_reservation_list
           (fun _ => inr {[ "done" := [Sample.done_po] ]})
           Sample.po_file_lt Sample.lower
           "." None None false true false false 0 100 ∅ _
           Hinit eq_refl Hm).
Defined.

(** X8 at [above = 20] and an absent [below], offline. *)
Lemma initialize_arguments_range_witness :
  initialize_arguments Sample.get_reservation_list (Some 20) None true false "."
  = inr (20, 100, ∅)
  /\ (20 <> 0 -> 20 <= 100)
  /\ initialize_arguments Sample.get_reservation_list (Some 20) (Some 100)
                          true false "."
     = inr (20, 100, ∅).
Proof.
  assert (initialize_arguments Sample.get_reservation_list (Some 20) None
            true false "." = inr (20, 100, ∅)) as Hinit by reflexivity.
  split; [exact Hinit|].
  destruct (initialize_arguments_range Sample.get_reservation_list
              (Some 20) None true false "." 20 100 ∅ Hinit)
    as (_ & _ & _ & Hle & Hagain).
  split; [exact Hle|exact Hagain].
Defined.

(** X10 on a collaborator that fails, under the default thresholds: online
    the run fails as the collaborator does; offline the collaborator is not
    consulted and the reservations are empty. *)
Lemma initialize_arguments_reservations_witness :
  false || false = false
  /\ true || false = true
  /\ (or_default None 0 = 0 \/ or_default None 0 <= or_default None 100)
  /\ Sample.unreachable "." = inl "unreachable"
  /\ initialize_arguments Sample.unreachable None None false false "."
     = inl (ExternalError "unreachable")
  /\ initialize_arguments Sample.unreachable None None true false "."
     = inr (0, 100, ∅).
Proof.
  assert (or_default None 0 = 0 \/ or_default None 0 <= or_default None 100)
    as Hr by (left; reflexivity).
  split; [reflexivity|]. split; [reflexivity|]. split; [exact Hr|].
  split; [reflexivity|]. split.
  - exact (proj2 (proj2 (proj2 (proj2 (initialize_arguments_reservations
                                         Sample.unreachable None None
                                         false false ".")
                                      eq_refl)) Hr)
                 "unreachable" eq_refl).
  - exact (proj2 (proj2 (proj1 (initialize_arguments_reservations
                                  Sample.unreachable None None true false ".")
                               eq_refl)) Hr).
Defined.

(** X11 on the sample repository, in text mode. *)
Lemma exec_potodo_returns_witness :
  initialize_arguments Sample.get_reservation_list None None false false "."
  = inr (0, 100, Sample.reservations)
  /\ Sample.get_po_files_from_repo "." = inr Sample.repo
  /\ valid_repo Sample.repo
  /\ snd (exec_potodo Sample.get_reservation_list
            Sample.get_po_files_from_repo Sample.po_file_lt Sample.lower
            "." None None false false false false false) = inr tt.
Proof.
  split; [exact sample_initialize_arguments|].
  split; [exact sample_get_po_files|].
  split; [exact sample_repo_valid|].
  exact (exec_potodo_returns Sample.get_reservation_list
           Sample.get_po_files_from_repo Sample.po_file_lt Sample.lower
           "." None None false false false false false
           0 100 Sample.reservations Sample.repo
           sample_initialize_arguments sample_get_po_files sample_repo_valid).
Defined.

(** X12 on the sample repository. *)
Lemma json_document_shape_witness :
  initialize_arguments Sample.get_reservation_list None None false false "."
  = inr (0, 100, Sample.reservations)
  /\ Sample.get_po_files_from_repo "." = inr Sample.repo
  /\ valid_repo Sample.repo
  /\ exists records,
       exec_potodo Sample.get_reservation_list Sample.get_po_files_from_repo
                   Sample.po_file_lt Sample.lower
                   "." None None false false false false true
       = ([PrintJson (VList records)], inr tt)
       /\ Forall (fun record =>
                    dict_keys record = ["name"; "pc_translated"; "files"])
                 records.
Proof.
  split; [exact sample_initialize_arguments|].
  split; [exact sample_get_po_files|].
  split; [exact sample_repo_valid|].
  destruct (json_document_shape Sample.get_reservation_list
              Sample.get_po_files_from_repo Sample.po_file_lt Sample.lower
              "." None None false false false false
              0 100 Sample.reservations Sample.repo
              sample_initialize_arguments sample_get_po_files sample_repo_valid)
    as (records & Hexec & Hshape).
  exists records. split; [exact Hexec|].
  eapply Forall_impl; [exact Hshape|]. intros record [Hkeys _]. exact Hkeys.
Defined.

(** X13 at [library/stdtypes.po]. *)
Lemma json_name_of_stem_witness :
  let f := Sample.po "library" "stdtypes.po" 0 1 3 4 75 in
  filename f = "stdtypes" +:+ ".po"
  /\ "stdtypes" = String "s" "tdtypes"
  /\ "stdtypes" = "stdtype" +:+ String "s" ""
  /\ mem_char "s" ".po" = false
  /\ exists record,
       describe Sample.lower f ∅ false true = inr record
       /\ dict_get "name" record = Some (VStr "library/stdtypes").
Proof.
  intros f. split; [reflexivity|]. split; [reflexivity|].
  split; [reflexivity|]. split; [reflexivity|].
  exact (json_name_of_stem Sample.lower f ∅ false
           "stdtypes" "tdtypes" "stdtype" "s" "s"
           eq_refl eq_refl eq_refl eq_refl eq_refl).
Defined.


Lemma sample_lower_char_not_L (c : ascii) : Sample.lower_char c <> "L"%char.
Proof. destruct c as [[] [] [] [] [] [] [] []]; vm_compute; discriminate. Qed.

Lemma sample_lower_not_capitalised (s : string) :
  Sample.lower s <> "Library/pickle.po".
Proof.
  destruct s as [|c s]; [discriminate|]. cbn [Sample.lower].
  intros [= Hc _]. by apply (sample_lower_char_not_L c).
Qed.

(** X15 at a reservation recorded under [Library/pickle.po]. *)
Lemma reservation_key_is_lowercase_witness :
  (forall s, Sample.lower s <> "Library/pickle.po")
  /\ describe Sample.lower Sample.pickle_po
              (<["Library/pickle.po" := "Eve"]> ∅) false true
     = describe Sample.lower Sample.pickle_po ∅ false true.
Proof.
  split; [exact sample_lower_not_capitalised|].
  exact (reservation_key_is_lowercase Sample.lower Sample.pickle_po ∅
           false true "Library/pickle.po" "Eve" sample_lower_not_capitalised).
Defined.

Lemma sample_loop_of (po_files : list PoFileStats) :
  forallb (fun f => (0 <=? percent_translated f)
                    && (percent_translated f <=? 100)) po_files = true ->
  exists st',
    po_files_loop Sample.lower po_files ∅ 0 100 false false false empty_state
    = inr st'.
Proof.
  intros Hall.
  destruct (po_files_loop_valid Sample.lower po_files ∅ 0 100
              false false false empty_state) as (descs & _ & ->).
  - apply List.Forall_forall. intros f Hf. apply sample_valid_po.
    rewrite forallb_forall in Hall. by apply Hall.
  - by eexists.
Defined.

(** X16 on two orderings of the directory of the example. *)
Lemma mean_independent_of_order_witness :
  [Sample.c_po; Sample.a_po; Sample.b_po]
  ≡ₚ [Sample.a_po; Sample.b_po; Sample.c_po]
  /\ exists st st',
       po_files_loop Sample.lower [Sample.c_po; Sample.a_po; Sample.b_po]
                     ∅ 0 100 false false false empty_state = inr st
       /\ po_files_loop Sample.lower [Sample.a_po; Sample.b_po; Sample.c_po]
                        ∅ 0 100 false false false empty_state = inr st'
       /\ mean (folder_stats st) = mean (folder_stats st').
Proof.
  assert ([Sample.c_po; Sample.a_po; Sample.b_po]
          ≡ₚ [Sample.a_po; Sample.b_po; Sample.c_po]) as Hp
    by exact (Permutation_cons_append [Sample.a_po; Sample.b_po] Sample.c_po).
  split; [exact Hp|].
  destruct (sample_loop_of [Sample.c_po; Sample.a_po; Sample.b_po] eq_refl)
    as [st Hst].
  destruct (sample_loop_of [Sample.a_po; Sample.b_po; Sample.c_po] eq_refl)
    as [st' Hst'].
  exists st, st'. split; [exact Hst|]. split; [exact Hst'|].
  exact (proj2 (mean_independent_of_order Sample.lower _ _ _ _ _ _ _ _ _ _
                  Hp Hst Hst')).
Defined.

(** X17 on the sample repository, offline. *)
Lemma offline_is_no_reservations_witness :
  true || false = true
  /\ exec_potodo Sample.get_reservation_list Sample.get_po_files_from_repo
                 Sample.po_file_lt Sample.lower
                 "." None None false true false false false
     = exec_potodo (fun _ => inr ∅) Sample.get_po_files_from_repo
                   Sample.po_file_lt Sample.lower
                   "." None None false false false false false.
Proof.
  split; [reflexivity|].
  exact (offline_is_no_reservations Sample.get_reservation_list
           Sample.get_po_files_from_repo Sample.po_file_lt Sample.lower
           "." None None false true false false false eq_refl).
Defined.

(** X18 at [potodo -o] and [potodo -n -p .], run in [.]. *)
Lemma main_offline_or_no_reserved_witness :
  let args :=
    {| args_path := None; args_above := None; args_below := None;
       args_fuzzy := false; args_offline := true; args_no_reserved := false;
       args_counts := false; args_json := false |} in
  let args' :=
    {| args_path := Some "."; args_above := None; args_below := None;
       args_fuzzy := false; args_offline := false; args_no_reserved := true;
       args_counts := false; args_json := false |} in
  args_offline args || args_no_reserved args = true
  /\ args_offline args' || args_no_reserved args' = true
  /\ main Sample.get_reservation_list Sample.get_po_files_from_repo
          Sample.po_file_lt Sample.lower "." args
     = main (fun _ => inl "offline") Sample.get_po_files_from_repo
            Sample.po_file_lt Sample.lower "." args'.
Proof.
  intros args args'. split; [reflexivity|]. split; [reflexivity|].
  exact (main_offline_or_no_reserved Sample.get_reservation_list
           (fun _ => inl "offline") Sample.get_po_files_from_repo
           Sample.po_file_lt Sample.lower "." args args'
           eq_refl eq_refl eq_refl eq_refl eq_refl eq_refl eq_refl eq_refl).
Defined.
